(** * A shallow embedding of check_update.py (CheckAppUpdate)

    The program polls the App Store lookup endpoint for a list of
    application ids, compares the versions against a JSON cache file and
    pushes one notification through Bark or Telegram.

    Modelling choices:
    - a Python [str] is a list of Unicode code points ([pystr]); slicing,
      [len] and concatenation are list operations on code points;
    - parsed JSON is the inductive [json]; a JSON object is the association
      list of the Python dict [json.load] builds (keys unique);
    - network calls are functions from the request to its outcome, and the
      observable effects of a run (requests sent, notification composed,
      cache saved) are returned as a list of events;
    - the library functions the code calls whose behaviour is not decided
      by this program ([datetime.fromisoformat], [str.lower], [str.upper],
      [datetime.now]) are section variables. *)

From Stdlib Require Import String Ascii ZArith.
From stdpp Require Import base list gmap.

Open Scope list_scope.

Abbreviation pystr := (list Z).

(** ASCII literal of the source, as code points. *)
Definition py (s : string) : pystr :=
  map (fun c => Z.of_nat (nat_of_ascii c)) (list_ascii_of_string s).

Definition NL : pystr := [10%Z].

Definition str_eqb (a b : pystr) : bool := bool_decide (a = b).

(** Python truthiness of a string. *)
Definition truthy (s : pystr) : bool := negb (bool_decide (s = [])).

(** [str(n)] for a non-negative integer. *)
Fixpoint digits_rev (fuel : nat) (n : nat) : pystr :=
  match fuel with
  | O => []
  | S f =>
      let d := Z.of_nat (n mod 10) in
      if (n <? 10)%nat then [48 + d]%Z else (48 + d)%Z :: digits_rev f (n / 10)
  end.

Definition py_str_nat (n : nat) : pystr := rev (digits_rev (S n) n).

(** [sep.join(xs)] *)
Fixpoint py_join (sep : pystr) (xs : list pystr) : pystr :=
  match xs with
  | [] => []
  | [x] => x
  | x :: rest => x ++ sep ++ py_join sep rest
  end.

(** ** JSON values, as [json.load] and [resp.json()] return them *)

Set Warnings "-register-all".

Inductive json :=
| JNull
| JBool (b : bool)
| JNum (n : Z)
| JStr (s : pystr)
| JArr (items : list json)
| JObj (fields : list (pystr * json)).

Abbreviation jobj := (list (pystr * json)).

(** [d.get(k)] *)
Fixpoint obj_get (d : jobj) (k : pystr) : option json :=
  match d with
  | [] => None
  | (k', v) :: rest => if str_eqb k k' then Some v else obj_get rest k
  end.

(** [d[k] = v]: replaces the value in place, or appends a new key. *)
Fixpoint obj_set (d : jobj) (k : pystr) (v : json) : jobj :=
  match d with
  | [] => [(k, v)]
  | (k', v') :: rest =>
      if str_eqb k k' then (k', v) :: rest else (k', v') :: obj_set rest k v
  end.

Definition is_dict (v : json) : bool :=
  match v with JObj _ => true | _ => false end.

(** ** Constants *)

Definition REGIONS : list pystr :=
  map py ["cn"; "us"; "hk"; "tw"; "jp"; "kr"; "gb"; "sg"; "au";
          "de"; "fr"; "ca"; "it"; "es"; "ru"; "br"; "mx"; "in"; "th"; "vn"]%string.

Definition REGION_NAMES : list (pystr * pystr) :=
  [ (py "cn", [20013; 22269]); (py "us", [32654; 22269]);
    (py "hk", [39321; 28207]); (py "tw", [21488; 28286]);
    (py "jp", [26085; 26412]); (py "kr", [38889; 22269]);
    (py "gb", [33521; 22269]); (py "sg", [26032; 21152; 22369]);
    (py "au", [28595; 22823; 21033; 20122]); (py "de", [24503; 22269]);
    (py "fr", [27861; 22269]); (py "ca", [21152; 25343; 22823]);
    (py "it", [24847; 22823; 21033]); (py "es", [35199; 29677; 29273]);
    (py "ru", [20420; 32599; 26031]); (py "br", [24052; 35199]);
    (py "mx", [22696; 35199; 21733]); (py "in", [21360; 24230]);
    (py "th", [27888; 22269]); (py "vn", [36234; 21335]) ]%Z.

Definition ITUNES_API : pystr := py "https://itunes.apple.com/lookup".
Definition BARK_API : pystr := py "https://api.day.app".
Definition TELEGRAM_API : pystr := py "https://api.telegram.org/bot".

(** ** load_version_cache *)

(** The state of [version_cache.json] on disk. *)
Inductive cache_store :=
| StoreMissing                 (* os.path.exists is false *)
| StoreUnreadable              (* open raises *)
| StoreUnparsable              (* json.load raises *)
| StoreJson (j : json).        (* json.load returns j *)

(** What the function hands back to its caller: a dict, or [None] when it
    falls off the end of its body. *)
Inductive load_result :=
| LoadedDict (d : jobj)
| LoadedNone.

(** The [try] body: the logging loop reads [info.get(...)] for the first
    three values, which raises [AttributeError] on a value that is not a
    dict; the handler returns [{}]. After [return data] the two lines meant
    for the non-dict case sit inside the [if] and are never reached, so a
    non-dict top-level value leaves the [with] block and the function
    returns [None]. *)
Definition load_version_cache (st : cache_store) : load_result :=
  match st with
  | StoreMissing => LoadedDict []
  | StoreUnreadable => LoadedDict []
  | StoreUnparsable => LoadedDict []
  | StoreJson (JObj d) =>
      if forallb (fun kv => is_dict (snd kv)) (firstn 3 d)
      then LoadedDict d else LoadedDict []
  | StoreJson _ => LoadedNone
  end.

(** ** get_app_info_with_region *)

(** Outcome of [requests.get(ITUNES_API, params=..., timeout=8)] followed
    by [resp.json()]: the call raises (timeout, connection error), or a
    reply with its status code and its body ([None] when [resp.json()]
    raises). *)
Inductive lookup_response :=
| LookupRaised
| LookupReply (status_code : Z) (body : option json).

(** [v > 0] in Python for the value of [data.get("resultCount", 0)]:
    [None] when the comparison raises [TypeError]; bool is an int. *)
Definition py_gt_zero (v : json) : option bool :=
  match v with
  | JNum n => Some (0 <? n)%Z
  | JBool b => Some b
  | _ => None
  end.

(** One iteration of the [for] loop: raise (caught, [continue]), fall
    through to the next region, or [return app]. *)
Inductive iter_outcome :=
| IterRaise
| IterNext
| IterReturn (app : jobj).

Definition try_region (region : pystr) (resp : lookup_response) : iter_outcome :=
  match resp with
  | LookupRaised => IterRaise
  | LookupReply status body =>
      if (status =? 200)%Z then
        match body with
        | None => IterRaise
        | Some (JObj data) =>
            let rc := match obj_get data (py "resultCount") with
                      | Some v => v | None => JNum 0 end in
            match py_gt_zero rc with
            | None => IterRaise
            | Some false => IterNext
            | Some true =>
                (* app = data["results"][0]; app["detected_region"] = region *)
                match obj_get data (py "results") with
                | Some (JArr (JObj app :: _)) =>
                    IterReturn (obj_set app (py "detected_region") (JStr region))
                | _ => IterRaise
                end
            end
        | Some _ => IterRaise   (* data.get on a non-dict *)
        end
      else IterNext
  end.

(** The loop over a region list: the requests issued, as
    [(app_id, country)] pairs, and the returned record ([None] when the
    loop runs out). *)
Fixpoint resolve_regions (lookup : pystr -> pystr -> lookup_response)
    (app_id : pystr) (regions : list pystr) : list (pystr * pystr) * option jobj :=
  match regions with
  | [] => ([], None)
  | region :: rest =>
      match try_region region (lookup app_id region) with
      | IterReturn app => ([(app_id, region)], Some app)
      | _ => let '(q, r) := resolve_regions lookup app_id rest in
             ((app_id, region) :: q, r)
      end
  end.

Definition get_app_info_with_region (lookup : pystr -> pystr -> lookup_response)
    (app_id : pystr) : list (pystr * pystr) * option jobj :=
  resolve_regions lookup app_id (firstn 6 REGIONS).

(** ** format_datetime *)

Record datetime := mkDatetime {
  dt_year : Z; dt_month : Z; dt_day : Z;
  dt_hour : Z; dt_minute : Z; dt_second : Z; dt_microsecond : Z;
  dt_tzoffset : option Z   (* minutes east of UTC, [None] when naive *)
}.

Definition is_leap (y : Z) : bool :=
  ((Z.modulo y 4 =? 0) && negb (Z.modulo y 100 =? 0) || (Z.modulo y 400 =? 0))%Z.

Definition days_in_month (y m : Z) : Z :=
  if (m =? 2)%Z then (if is_leap y then 29%Z else 28%Z)
  else if ((m =? 4) || (m =? 6) || (m =? 9) || (m =? 11))%Z then 30%Z
  else 31%Z.

(** The wall clock moved forward by eight hours on the proleptic
    Gregorian calendar, without any bound on the year. *)
Definition shift_8_hours (dt : datetime) : datetime :=
  let h := (dt_hour dt + 8)%Z in
  if (h <? 24)%Z then
    mkDatetime (dt_year dt) (dt_month dt) (dt_day dt) h (dt_minute dt)
      (dt_second dt) (dt_microsecond dt) (dt_tzoffset dt)
  else
    let '(y, m, d) :=
      if (dt_day dt <? days_in_month (dt_year dt) (dt_month dt))%Z
      then (dt_year dt, dt_month dt, dt_day dt + 1)%Z
      else if (dt_month dt <? 12)%Z then (dt_year dt, dt_month dt + 1, 1)%Z
      else (dt_year dt + 1, 1, 1)%Z in
    mkDatetime y m d (h - 24)%Z (dt_minute dt) (dt_second dt)
      (dt_microsecond dt) (dt_tzoffset dt).

Definition MAXYEAR : Z := 9999.

(** [dt + timedelta(hours=8)]: the tzinfo is carried along unchanged, and a
    result past [MAXYEAR] raises [OverflowError]. *)
Definition add_8_hours (dt : datetime) : option datetime :=
  let r := shift_8_hours dt in
  if (dt_year r <=? MAXYEAR)%Z then Some r else None.

Definition zero_pad (width : nat) (n : Z) : pystr :=
  let s := py_str_nat (Z.to_nat n) in
  repeat 48%Z (width - length s) ++ s.

(** [dt.strftime("%Y-%m-%d %H:%M")], the year written with at least four
    digits. *)
Definition strftime_ymdhm (dt : datetime) : pystr :=
  zero_pad 4 (dt_year dt) ++ py "-" ++ zero_pad 2 (dt_month dt) ++ py "-" ++
  zero_pad 2 (dt_day dt) ++ py " " ++ zero_pad 2 (dt_hour dt) ++ py ":" ++
  zero_pad 2 (dt_minute dt).

(** [s.replace(c, rep)] for a one-character pattern: every occurrence. *)
Definition str_replace_char (c : Z) (rep : pystr) (s : pystr) : pystr :=
  flat_map (fun x => if (x =? c)%Z then rep else [x]) s.

(** "未知" *)
Definition UNKNOWN_TIME : pystr := [26410; 30693]%Z.

Section FormatDatetime.

(** [datetime.fromisoformat]: [None] when it raises [ValueError]. *)
Variable fromisoformat : pystr -> option datetime.

Definition format_datetime (iso_datetime : pystr) : pystr :=
  if negb (truthy iso_datetime) then UNKNOWN_TIME
  else
    match fromisoformat (str_replace_char 90%Z (py "+00:00") iso_datetime) with
    | Some dt =>
        match add_8_hours dt with
        | Some utc_plus_8 => strftime_ymdhm utc_plus_8
        | None => firstn 16 iso_datetime      (* except: *)
        end
    | None => firstn 16 iso_datetime          (* except: *)
    end.

End FormatDatetime.

(** A model of [datetime.fromisoformat] on the two layouts
    [YYYY-MM-DDTHH:MM:SS] and [YYYY-MM-DDTHH:MM:SS+HH:MM]; every other
    string is refused. Used to run the code on concrete inputs. *)
Definition digit (c : Z) : option Z :=
  if ((48 <=? c) && (c <=? 57))%Z then Some (c - 48)%Z else None.

Definition num2 (a b : Z) : option Z :=
  match digit a, digit b with
  | Some x, Some y => Some (10 * x + y)%Z
  | _, _ => None
  end.

Definition num4 (a b c d : Z) : option Z :=
  match num2 a b, num2 c d with
  | Some x, Some y => Some (100 * x + y)%Z
  | _, _ => None
  end.

Definition mk_checked (y mo d h mi s : Z) (tz : option Z) : option datetime :=
  if ((1 <=? y) && (y <=? MAXYEAR) && (1 <=? mo) && (mo <=? 12) &&
      (1 <=? d) && (d <=? days_in_month y mo) && (0 <=? h) && (h <? 24) &&
      (0 <=? mi) && (mi <? 60) && (0 <=? s) && (s <? 60))%Z
  then Some (mkDatetime y mo d h mi s 0 tz) else None.

Definition iso_basic (s : pystr) : option datetime :=
  let date_time y1 y2 y3 y4 m1 m2 d1 d2 h1 h2 i1 i2 s1 s2 tz :=
    match num4 y1 y2 y3 y4, num2 m1 m2, num2 d1 d2, num2 h1 h2,
          num2 i1 i2, num2 s1 s2 with
    | Some y, Some mo, Some d, Some h, Some mi, Some sec =>
        mk_checked y mo d h mi sec tz
    | _, _, _, _, _, _ => None
    end in
  match s with
  | [y1; y2; y3; y4; 45; m1; m2; 45; d1; d2; 84; h1; h2; 58; i1; i2; 58; s1; s2] =>
      date_time y1 y2 y3 y4 m1 m2 d1 d2 h1 h2 i1 i2 s1 s2 None
  | [y1; y2; y3; y4; 45; m1; m2; 45; d1; d2; 84; h1; h2; 58; i1; i2; 58; s1; s2;
     43; a1; a2; 58; b1; b2] =>
      match num2 a1 a2, num2 b1 b2 with
      | Some oh, Some om => date_time y1 y2 y3 y4 m1 m2 d1 d2 h1 h2 i1 i2 s1 s2
                              (Some (60 * oh + om)%Z)
      | _, _ => None
      end
  | _ => None
  end%Z.

(** ** Push backends *)

(** A POST issued by a backend: form-encoded ([data=]) or JSON ([json=]). *)
Inductive request :=
| PostForm (url : pystr) (data : list (pystr * pystr))
| PostJson (url : pystr) (payload : json).

(** Outcome of [requests.post(...)]: it raises, or a reply with a status
    code and a body ([None] when [resp.json()] raises). *)
Inductive post_response :=
| PostRaised
| PostReply (status_code : Z) (body : option json).

(** Python truthiness of [data.get('ok')]. *)
Definition json_truthy (v : option json) : bool :=
  match v with
  | None | Some JNull => false
  | Some (JBool b) => b
  | Some (JNum n) => negb (n =? 0)%Z
  | Some (JStr s) => truthy s
  | Some (JArr l) => negb (bool_decide (l = []))
  | Some (JObj l) => negb (bool_decide (l = []))
  end.

(** The process environment read by the configuration getters. *)
Record env := mkEnv {
  PUSH_METHOD : option pystr;
  BARK_KEY : option pystr;
  TELEGRAM_BOT_TOKEN : option pystr;
  TELEGRAM_CHAT_ID : option pystr
}.

(** "App Store更新" *)
Definition BARK_GROUP : pystr := py "App Store" ++ [26356; 26032]%Z.

Section Dispatch.

(** [str.lower] *)
Variable py_lower : pystr -> pystr.
(** The network, for the POST requests. *)
Variable post : request -> post_response.

Definition get_push_method (e : env) : pystr :=
  py_lower (default (py "bark") (PUSH_METHOD e)).

Definition get_bark_key (e : env) : pystr := default [] (BARK_KEY e).

Definition get_telegram_config (e : env) : pystr * pystr :=
  (default [] (TELEGRAM_BOT_TOKEN e), default [] (TELEGRAM_CHAT_ID e)).

(** The result and the requests issued. *)
Definition send_bark_notification (bark_key title content url icon_url : pystr)
    : bool * list request :=
  let data :=
    [(py "title", title); (py "body", content); (py "group", BARK_GROUP);
     (py "sound", py "bell"); (py "isArchive", py "1")]
    ++ (if truthy url then [(py "url", url)] else [])
    ++ (if truthy icon_url then [(py "icon", icon_url)] else []) in
  let req := PostForm (BARK_API ++ py "/" ++ bark_key) data in
  let success :=
    match post req with
    | PostRaised => false
    | PostReply status _ => (status =? 200)%Z
    end in
  (success, [req]).

Definition send_telegram_notification (bot_token chat_id title content : pystr)
    : bool * list request :=
  let message := py "*" ++ title ++ py "*" ++ NL ++ NL ++ content in
  let url := TELEGRAM_API ++ bot_token ++ py "/sendMessage" in
  let payload :=
    JObj [(py "chat_id", JStr chat_id); (py "text", JStr message);
          (py "parse_mode", JStr (py "Markdown"));
          (py "disable_web_page_preview", JBool false)] in
  let req := PostJson url payload in
  let success :=
    match post req with
    | PostReply _ (Some (JObj data)) => json_truthy (obj_get data (py "ok"))
    | _ => false      (* raised, resp.json() raised, or data.get on a non-dict *)
    end in
  (success, [req]).

Definition send_notification (e : env) (title content url icon_url : pystr)
    : bool * list request :=
  let method := get_push_method e in
  if str_eqb method (py "bark") then
    let key := get_bark_key e in
    if negb (truthy key) then (false, [])
    else send_bark_notification key title content url icon_url
  else if str_eqb method (py "telegram") then
    let '(bot_token, chat_id) := get_telegram_config e in
    if negb (truthy bot_token) || negb (truthy chat_id) then (false, [])
    else send_telegram_notification bot_token chat_id title content
  else (false, []).

End Dispatch.

(** ** Orchestration: check_updates *)

(** The fields of the record [get_app_info_with_region] returns that the
    orchestrator reads with [info.get(key, default)]; [None] when the key
    is absent. The storefront sends them as strings. *)
Record app_info := mkAppInfo {
  ai_trackName : option pystr;
  ai_version : option pystr;
  ai_releaseNotes : option pystr;
  ai_trackViewUrl : option pystr;
  ai_currentVersionReleaseDate : option pystr;
  ai_detected_region : option pystr;
  ai_artworkUrl100 : option pystr
}.

(** A value of the cache dict; [None] for a key the entry lacks. *)
Record cache_entry := mkCacheEntry {
  ce_version : option pystr;
  ce_app_name : option pystr;
  ce_region : option pystr;
  ce_icon : option pystr;
  ce_updated_at : option pystr
}.

(** The [app_data] dict built for each resolved application. *)
Record app_data := mkAppData {
  ad_id : pystr;
  ad_name : pystr;
  ad_version : pystr;
  ad_region : pystr;
  ad_icon : pystr;
  ad_old_version : pystr;
  ad_notes : pystr;
  ad_release : pystr;
  ad_url : pystr
}.

(** "暂无更新说明" *)
Definition NO_NOTES : pystr := [26242; 26080; 26356; 26032; 35828; 26126]%Z.

Definition build_app_detail (app : app_data) (show_old_version : bool) : pystr :=
  let old_ver :=
    if show_old_version && truthy (ad_old_version app)
    then [65288]%Z ++ ad_old_version app ++ [8594]%Z     (* "（" old "→" *)
    else [] in
  let notes := ad_notes app in
  let notes := if (150 <? length notes)%nat then firstn 147 notes ++ py "..." else notes in
  [128241; 32]%Z ++ ad_name app ++ old_ver ++ ad_version app ++ [32; 128241]%Z
  ++ [10; 22320; 21306; 58; 32]%Z ++ ad_region app                 (* "\n地区: " *)
  ++ [32; 124; 32; 26356; 26032; 26102; 38388; 58; 32]%Z         (* " | 更新时间: " *)
  ++ ad_release app
  ++ [10]%Z ++ repeat 9473%Z 15 ++ [10]%Z                        (* "\n━━━…━\n" *)
  ++ notes.

(** How the pass classified an application, as its console line says:
    "初始化" (first run), "更新" (update, with the old version) or "最新"
    (up to date). *)
Inductive classification :=
| Unseen
| Unchanged
| Updated (old : pystr).

(** One console line of the pass: the id, and for a resolved id its
    classification, name and version. *)
Record log_line := mkLogLine {
  ll_id : pystr;
  ll_result : option (classification * pystr * pystr)
}.

Record run_state := mkRunState {
  rs_cache : gmap pystr cache_entry;
  rs_all_current_apps : list app_data;
  rs_updated_apps : list app_data;
  rs_log : list log_line
}.

(** Observable effects of a run. *)
Inductive event :=
| EvNotify (title content url icon : pystr)   (* send_notification called *)
| EvPost (req : request)                      (* a request on the network *)
| EvSave (cache : gmap pystr cache_entry).    (* save_version_cache called *)

Fixpoint assoc_get (l : list (pystr * pystr)) (k : pystr) : option pystr :=
  match l with
  | [] => None
  | (k', v) :: rest => if str_eqb k k' then Some v else assoc_get rest k
  end.

Definition old_version_of (cache : gmap pystr cache_entry) (app_id : pystr) : pystr :=
  match cache !! app_id with
  | Some e => default [] (ce_version e)
  | None => []
  end.

Section Run.

Variable py_lower : pystr -> pystr.
Variable py_upper : pystr -> pystr.
Variable fromisoformat : pystr -> option datetime.
(** [datetime.now().isoformat()] *)
Variable now_iso : pystr.
Variable post : request -> post_response.
(** [get_app_info_with_region(app_id)], [None] when it returns [None]. *)
Variable resolve : pystr -> option app_info.

Definition region_name_of (region_code : pystr) : pystr :=
  match assoc_get REGION_NAMES region_code with
  | Some n => n
  | None => py_upper region_code
  end.

Definition new_entry (version name region_code icon : pystr) : cache_entry :=
  mkCacheEntry (Some version) (Some name) (Some region_code) (Some icon) (Some now_iso).

(** One iteration of [for app_id in app_ids]. *)
Definition check_one (is_first_run : bool) (st : run_state) (app_id : pystr) : run_state :=
  match resolve app_id with
  | None =>
      mkRunState (rs_cache st) (rs_all_current_apps st) (rs_updated_apps st)
        (rs_log st ++ [mkLogLine app_id None])
  | Some info =>
      let name := default (py "Unknown App") (ai_trackName info) in
      let version := default (py "0.0") (ai_version info) in
      let notes := default NO_NOTES (ai_releaseNotes info) in
      let url := default [] (ai_trackViewUrl info) in
      let release_iso := default [] (ai_currentVersionReleaseDate info) in
      let region_code := default (py "us") (ai_detected_region info) in
      let region_name := region_name_of region_code in
      let icon := default [] (ai_artworkUrl100 info) in
      let release_time := format_datetime fromisoformat release_iso in
      let old_version := old_version_of (rs_cache st) app_id in
      let app := mkAppData app_id name version region_name icon old_version
                   notes release_time url in
      if is_first_run || negb (str_eqb old_version version) then
        let cache' := <[app_id := new_entry version name region_code icon]> (rs_cache st) in
        if is_first_run then
          mkRunState cache' (rs_all_current_apps st ++ [app]) (rs_updated_apps st)
            (rs_log st ++ [mkLogLine app_id (Some (Unseen, name, version))])
        else
          mkRunState cache' (rs_all_current_apps st) (rs_updated_apps st ++ [app])
            (rs_log st ++ [mkLogLine app_id (Some (Updated old_version, name, version))])
      else
        mkRunState (rs_cache st) (rs_all_current_apps st) (rs_updated_apps st)
          (rs_log st ++ [mkLogLine app_id (Some (Unchanged, name, version))])
  end.

Definition start_state (cache : gmap pystr cache_entry) : run_state :=
  mkRunState cache [] [] [].

Definition run_pass (is_first_run : bool) (app_ids : list pystr)
    (cache : gmap pystr cache_entry) : run_state :=
  fold_left (check_one is_first_run) app_ids (start_state cache).

(** Titles and content prefixes. *)
Definition title_init (n : nat) : pystr :=
  [128241; 32; 30417; 25511; 21021; 22987; 21270; 23436; 25104; 32; 40]%Z
  ++ py_str_nat n ++ [32; 24212; 29992; 41]%Z.
Definition content_init_prefix : pystr :=
  [9989; 32; 24050; 25104; 21151; 28155; 21152; 20197; 19979; 24212; 29992;
   21040; 30417; 25511; 21015; 34920; 65306; 10; 10]%Z.
Definition title_single (name : pystr) : pystr :=
  [128293; 32]%Z ++ name ++ [32; 26377; 26032; 29256; 26412; 21862; 65281]%Z.
Definition title_multi (n : nat) : pystr :=
  [128241; 32]%Z ++ py "App Store " ++ [26356; 26032; 32; 40]%Z
  ++ py_str_nat n ++ [32; 20010; 41]%Z.
Definition content_multi_prefix : pystr :=
  [21457; 29616; 20197; 19979; 24212; 29992; 26377; 26356; 26032; 65306; 10; 10]%Z.

(** [send_notification(...)] followed by [save_version_cache(cache)]. *)
Definition notify_and_save (e : env) (title content url icon : pystr)
    (cache : gmap pystr cache_entry) : list event :=
  let '(_, reqs) := send_notification py_lower post e title content url icon in
  [EvNotify title content url icon] ++ map EvPost reqs ++ [EvSave cache].

(** [check_updates()] from the point where [app_ids] and the loaded
    [cache] are known. *)
Definition check_updates (e : env) (app_ids : list pystr)
    (cache : gmap pystr cache_entry) : list event :=
  match app_ids with
  | [] => []
  | _ =>
      let is_first_run := bool_decide (size cache = 0%nat) in
      let st := run_pass is_first_run app_ids cache in
      let incremental :=
        match rs_updated_apps st with
        | [] => []
        | [app] =>
            notify_and_save e (title_single (ad_name app))
              (build_app_detail app true) (ad_url app) (ad_icon app) (rs_cache st)
        | first_app :: _ =>
            let apps := rs_updated_apps st in
            let details := py_join (NL ++ NL) (map (fun a => build_app_detail a true) apps) in
            notify_and_save e (title_multi (length apps))
              (content_multi_prefix ++ details)
              (ad_url first_app) (ad_icon first_app) (rs_cache st)
        end in
      if is_first_run then
        match rs_all_current_apps st with
        | [] => incremental
        | first_app :: _ =>
            let apps := rs_all_current_apps st in
            let details := py_join (NL ++ NL) (map (fun a => build_app_detail a false) apps) in
            notify_and_save e (title_init (length apps))
              (content_init_prefix ++ details)
              (ad_url first_app) (ad_icon first_app) (rs_cache st)
        end
      else incremental
  end.

End Run.

(** ** get_app_ids *)

(** The code points for which [str.isspace()] holds, i.e. the characters
    [str.strip()] removes. *)
Definition py_isspace (c : Z) : bool :=
  (((9 <=? c) && (c <=? 13)) || ((28 <=? c) && (c <=? 32)) || (c =? 133) || (c =? 160)
  || (c =? 5760) || ((8192 <=? c) && (c <=? 8202)) || (c =? 8232) || (c =? 8233)
  || (c =? 8239) || (c =? 8287) || (c =? 12288))%Z.

Fixpoint drop_while (p : Z -> bool) (s : pystr) : pystr :=
  match s with
  | [] => []
  | c :: r => if p c then drop_while p r else s
  end.

(** [s.strip()] *)
Definition py_strip (s : pystr) : pystr :=
  rev (drop_while py_isspace (rev (drop_while py_isspace s))).

(** [s.split(sep)] for a one-character separator: the fields between the
    separators, empty fields included. *)
Fixpoint py_split (sep : Z) (s : pystr) : list pystr :=
  match s with
  | [] => [[]]
  | c :: r =>
      let fields := py_split sep r in
      if (c =? sep)%Z then [] :: fields
      else match fields with
           | f :: fs => (c :: f) :: fs
           | [] => [[c]]
           end
  end.

Definition TEST_APP_IDS : list pystr := [py "414478124"].

(** [get_app_ids()], given [os.getenv("APP_IDS")] ([None] when the
    variable is unset, so that the default "" applies). *)
Definition get_app_ids (app_ids_env : option pystr) : list pystr :=
  let env_ids := default [] app_ids_env in
  if truthy env_ids then
    map py_strip (List.filter (fun i => truthy (py_strip i)) (py_split 44%Z env_ids))
  else TEST_APP_IDS.

(** ** save_version_cache *)

(** The JSON object [json.dump] writes for a cache value: the keys the
    entry has. *)
Definition entry_json (ent : cache_entry) : json :=
  JObj (omap (fun kv => (fun s => (kv.1, JStr s)) <$> kv.2)
          [(py "version", ce_version ent); (py "app_name", ce_app_name ent);
           (py "region", ce_region ent); (py "icon", ce_icon ent);
           (py "updated_at", ce_updated_at ent)]).

(** The whole cache as a JSON object. *)
Definition cache_json (cache : gmap pystr cache_entry) : json :=
  JObj (map (fun kv => (kv.1, entry_json kv.2)) (map_to_list cache)).

(** [save_version_cache(cache)]: when [open(CACHE_FILE, "w")] raises, the
    file is left as it was; otherwise the dump is written, and the next
    [json.load] reads back the value [json.dump] wrote. The logging after
    the write (which may raise [KeyError] on an entry without "version" or
    "app_name") is caught by the handler and does not touch the file. *)
Definition save_version_cache (open_ok : bool) (st : cache_store)
    (cache : gmap pystr cache_entry) : cache_store :=
  if open_ok then StoreJson (cache_json cache) else st.

(** [cache.get(app_id, {}).get("version", "")] on a dict loaded from the
    file; [None] when [.get] is called on a value that is not a dict
    ([AttributeError]). *)
Definition cached_version_json (cache : jobj) (app_id : pystr) : option json :=
  match obj_get cache app_id with
  | None => Some (JStr [])
  | Some (JObj ent) => Some (default (JStr []) (obj_get ent (py "version")))
  | Some _ => None
  end.

(** * Properties *)

(** ** Storefront responses, as the claims speak of them *)

(** The result count a reply reports ([data.get("resultCount", 0)]),
    [None] when it is not a number. *)
Definition result_count (d : jobj) : option Z :=
  match obj_get d (py "resultCount") with
  | None => Some 0%Z
  | Some (JNum n) => Some n
  | Some (JBool b) => Some (if b then 1%Z else 0%Z)
  | Some _ => None
  end.

(** A reply that reports a positive result count and carries the record as
    the first element of [results]. *)
Inductive lookup_hit : lookup_response -> jobj -> Prop :=
| lookup_hit_intro d n app rest :
    result_count d = Some n -> (0 < n)%Z ->
    obj_get d (py "results") = Some (JArr (JObj app :: rest)) ->
    lookup_hit (LookupReply 200 (Some (JObj d))) app.

(** A miss: a transport failure (the call raises, a non-200 status, a body
    that is not JSON or not an object, a malformed count or result list),
    or a reply that reports no result. *)
Inductive lookup_miss : lookup_response -> Prop :=
| miss_transport : lookup_miss LookupRaised
| miss_status s b : s <> 200%Z -> lookup_miss (LookupReply s b)
| miss_not_json : lookup_miss (LookupReply 200 None)
| miss_not_object j : is_dict j = false -> lookup_miss (LookupReply 200 (Some j))
| miss_bad_count d : result_count d = None -> lookup_miss (LookupReply 200 (Some (JObj d)))
| miss_zero d n : result_count d = Some n -> (n <= 0)%Z ->
    lookup_miss (LookupReply 200 (Some (JObj d)))
| miss_bad_results d n : result_count d = Some n -> (0 < n)%Z ->
    (forall app rest, obj_get d (py "results") <> Some (JArr (JObj app :: rest))) ->
    lookup_miss (LookupReply 200 (Some (JObj d))).

Lemma py_gt_zero_result_count (d : jobj) :
  py_gt_zero (match obj_get d (py "resultCount") with Some v => v | None => JNum 0 end)
  = option_map (fun n => (0 <? n)%Z) (result_count d).
Proof.
  unfold result_count. destruct (obj_get d (py "resultCount")) as [[]|]; simpl; auto.
  destruct b; reflexivity.
Qed.

Lemma lookup_hit_or_miss (resp : lookup_response) :
  (exists app, lookup_hit resp app) \/ lookup_miss resp.
Proof.
  destruct resp as [|s [j|]]; [right; constructor| |].
  - destruct (Z.eq_dec s 200%Z) as [->|Hs]; [|right; now constructor].
    destruct j as [| | | | |d]; try (right; apply miss_not_object; reflexivity).
    destruct (result_count d) as [n|] eqn:Hc; [|right; now apply miss_bad_count].
    destruct (Z_lt_le_dec 0 n) as [Hn|Hn]; [|right; eapply miss_zero; eauto].
    destruct (obj_get d (py "results")) as [r|] eqn:Hr;
      [|right; eapply miss_bad_results; eauto; intros; congruence].
    destruct r as [| | | |items|];
      try (right; eapply miss_bad_results; eauto; intros; congruence).
    destruct items as [|[| | | | |app] rest];
      try (right; eapply miss_bad_results; eauto; intros; congruence).
    left. eexists. econstructor; eauto.
  - destruct (Z.eq_dec s 200%Z) as [->|Hs]; [right; apply miss_not_json|right; now constructor].
Qed.

Lemma try_region_hit (region : pystr) (resp : lookup_response) (app : jobj) :
  lookup_hit resp app ->
  try_region region resp = IterReturn (obj_set app (py "detected_region") (JStr region)).
Proof.
  intros [d n app' rest Hc Hn Hr]. simpl.
  rewrite py_gt_zero_result_count, Hc. simpl.
  replace (0 <? n)%Z with true by (symmetry; apply Z.ltb_lt; lia).
  now rewrite Hr.
Qed.

Lemma try_region_miss (region : pystr) (resp : lookup_response) :
  lookup_miss resp -> forall app, try_region region resp <> IterReturn app.
Proof.
  intros Hm app. destruct Hm as [|s b Hs| |j Hj|d Hc|d n Hc Hn|d n Hc Hn Hr]; simpl.
  - discriminate.
  - apply Z.eqb_neq in Hs. rewrite Hs. discriminate.
  - discriminate.
  - destruct j; simpl in Hj; discriminate.
  - rewrite py_gt_zero_result_count, Hc. discriminate.
  - rewrite py_gt_zero_result_count, Hc. simpl.
    replace (0 <? n)%Z with false by (symmetry; apply Z.ltb_ge; lia). discriminate.
  - rewrite py_gt_zero_result_count, Hc. simpl.
    replace (0 <? n)%Z with true by (symmetry; apply Z.ltb_lt; lia).
    destruct (obj_get d (py "results")) as [[| | | |[|[| | | | |a] rest]|]|] eqn:E;
      try discriminate.
    exfalso. exact (Hr a rest eq_refl).
Qed.

Lemma resolve_regions_first_hit lookup app_id pre region post app :
  Forall (fun r => lookup_miss (lookup app_id r)) pre ->
  lookup_hit (lookup app_id region) app ->
  resolve_regions lookup app_id (pre ++ region :: post)
  = (map (pair app_id) (pre ++ [region]),
     Some (obj_set app (py "detected_region") (JStr region))).
Proof.
  intros Hpre Hhit. induction Hpre as [|r pre Hr Hpre IH]; simpl.
  - now rewrite (try_region_hit _ _ _ Hhit).
  - destruct (try_region r (lookup app_id r)) eqn:E.
    + rewrite IH. reflexivity.
    + rewrite IH. reflexivity.
    + exfalso. exact (try_region_miss r _ Hr _ E).
Qed.

Lemma resolve_regions_all_miss lookup app_id regions :
  Forall (fun r => lookup_miss (lookup app_id r)) regions ->
  resolve_regions lookup app_id regions = (map (pair app_id) regions, None).
Proof.
  intros H. induction H as [|r rs Hr Hrs IH]; simpl; [reflexivity|].
  destruct (try_region r (lookup app_id r)) eqn:E.
  - rewrite IH. reflexivity.
  - rewrite IH. reflexivity.
  - exfalso. exact (try_region_miss r _ Hr _ E).
Qed.

Lemma resolve_regions_queries_prefix lookup app_id regions :
  exists k, (k <= length regions)%nat /\
    fst (resolve_regions lookup app_id regions) = map (pair app_id) (firstn k regions).
Proof.
  induction regions as [|r rs [k [Hk IH]]]; simpl.
  - exists 0%nat. split; [lia|reflexivity].
  - destruct (try_region r (lookup app_id r)).
    + destruct (resolve_regions lookup app_id rs) eqn:E. simpl in IH |- *.
      exists (S k). split; [lia|]. simpl. now rewrite IH.
    + destruct (resolve_regions lookup app_id rs) eqn:E. simpl in IH |- *.
      exists (S k). split; [lia|]. simpl. now rewrite IH.
    + exists 1%nat. split; [lia|reflexivity].
Qed.

(** ** The cache loader *)

(** C2 (code_bug): a missing or unparsable cache file gives [{}], but a
    file whose top-level JSON value is a list ([[]]) makes
    [load_version_cache] return [None], not a mapping. *)
Theorem load_version_cache_non_dict_returns_none :
  load_version_cache StoreMissing = LoadedDict [] /\
  load_version_cache StoreUnparsable = LoadedDict [] /\
  load_version_cache (StoreJson (JArr [])) = LoadedNone.
Proof. repeat split. Qed.

(** ** The region resolver *)

(** C3: over the searched region list, the first region whose reply
    reports a positive result count is accepted with its code attached,
    and no region after it is queried; regions before it that fail at the
    transport level or report no result are skipped; when every region
    misses, the result is [None] (NotFound) after querying all of them. *)
Theorem get_app_info_first_hit_short_circuit :
  (forall (lookup : pystr -> pystr -> lookup_response) (app_id : pystr)
          (pre : list pystr) (region : pystr) (post : list pystr) (app : jobj),
     firstn 6 REGIONS = pre ++ region :: post ->
     Forall (fun r => lookup_miss (lookup app_id r)) pre ->
     lookup_hit (lookup app_id region) app ->
     get_app_info_with_region lookup app_id
     = (map (pair app_id) (pre ++ [region]),
        Some (obj_set app (py "detected_region") (JStr region)))) /\
  (forall (lookup : pystr -> pystr -> lookup_response) (app_id : pystr),
     Forall (fun r => lookup_miss (lookup app_id r)) (firstn 6 REGIONS) ->
     get_app_info_with_region lookup app_id
     = (map (pair app_id) (firstn 6 REGIONS), None)).
Proof.
  split.
  - intros lookup app_id pre region post app Hsplit Hpre Hhit.
    unfold get_app_info_with_region. rewrite Hsplit.
    now apply resolve_regions_first_hit.
  - intros lookup app_id Hall. unfold get_app_info_with_region.
    now apply resolve_regions_all_miss.
Qed.

Definition sample_hit_reply : lookup_response :=
  LookupReply 200 (Some (JObj [(py "resultCount", JNum 1);
                               (py "results", JArr [JObj [(py "version", JStr (py "8.0"))]])])).

(** The storefront has the application in "us" only; "cn" times out. *)
Definition sample_lookup (app_id region : pystr) : lookup_response :=
  if str_eqb region (py "us") then sample_hit_reply
  else if str_eqb region (py "cn") then LookupRaised
  else LookupReply 200 (Some (JObj [(py "resultCount", JNum 0); (py "results", JArr [])])).

Lemma get_app_info_first_hit_short_circuit_witness :
  firstn 6 REGIONS = [py "cn"] ++ py "us" :: map py ["hk"; "tw"; "jp"; "kr"]%string /\
  Forall (fun r => lookup_miss (sample_lookup (py "414478124") r)) [py "cn"] /\
  lookup_hit (sample_lookup (py "414478124") (py "us")) [(py "version", JStr (py "8.0"))] /\
  get_app_info_with_region sample_lookup (py "414478124")
  = ([(py "414478124", py "cn"); (py "414478124", py "us")],
     Some [(py "version", JStr (py "8.0")); (py "detected_region", JStr (py "us"))]).
Proof.
  assert (Hs : firstn 6 REGIONS = [py "cn"] ++ py "us" :: map py ["hk"; "tw"; "jp"; "kr"]%string)
    by reflexivity.
  assert (Hm : Forall (fun r => lookup_miss (sample_lookup (py "414478124") r)) [py "cn"])
    by (repeat constructor).
  assert (Hh : lookup_hit (sample_lookup (py "414478124") (py "us"))
                 [(py "version", JStr (py "8.0"))])
    by (econstructor; reflexivity).
  split; [exact Hs|]. split; [exact Hm|]. split; [exact Hh|].
  exact (proj1 get_app_info_first_hit_short_circuit sample_lookup (py "414478124")
           [py "cn"] (py "us") _ _ Hs Hm Hh).
Defined.

(** C9: [REGIONS] has 20 entries but only its first six are searched: an
    application found only from index 6 on is NotFound, and whatever the
    storefront answers, the queried regions are a prefix of the first
    six. *)
Theorem get_app_info_searches_first_six :
  length REGIONS = 20%nat /\
  (forall (lookup : pystr -> pystr -> lookup_response) (app_id : pystr),
     (exists i r app, (6 <= i)%nat /\ nth_error REGIONS i = Some r /\
                      lookup_hit (lookup app_id r) app) ->
     (forall r, In r (firstn 6 REGIONS) -> lookup_miss (lookup app_id r)) ->
     get_app_info_with_region lookup app_id
     = (map (pair app_id) (firstn 6 REGIONS), None)) /\
  (forall (lookup : pystr -> pystr -> lookup_response) (app_id : pystr),
     exists k, (k <= 6)%nat /\
       fst (get_app_info_with_region lookup app_id) = map (pair app_id) (firstn k REGIONS)).
Proof.
  split; [reflexivity|]. split.
  - intros lookup app_id _ Hmiss. unfold get_app_info_with_region.
    apply resolve_regions_all_miss. apply List.Forall_forall. exact Hmiss.
  - intros lookup app_id. unfold get_app_info_with_region.
    destruct (resolve_regions_queries_prefix lookup app_id (firstn 6 REGIONS)) as [k [Hk Hq]].
    exists k. split; [simpl in Hk; lia|].
    rewrite Hq, firstn_firstn. f_equal. f_equal. simpl in Hk. lia.
Qed.

(** The application is listed only in "gb" (index 6). *)
Definition gb_only_lookup (app_id region : pystr) : lookup_response :=
  if str_eqb region (py "gb") then sample_hit_reply
  else LookupReply 200 (Some (JObj [(py "resultCount", JNum 0); (py "results", JArr [])])).

Lemma get_app_info_searches_first_six_witness :
  get_app_info_with_region gb_only_lookup (py "1")
  = (map (pair (py "1")) (firstn 6 REGIONS), None).
Proof.
  apply (proj1 (proj2 get_app_info_searches_first_six)).
  - exists 6%nat, (py "gb"), [(py "version", JStr (py "8.0"))].
    split; [lia|]. split; [reflexivity|]. econstructor; reflexivity.
  - intros r Hr. simpl in Hr.
    repeat (destruct Hr as [<-|Hr]; [eapply miss_zero; [reflexivity|lia]|]).
    destruct Hr.
Defined.

(** ** The pass over the application ids *)

Definition is_unseen (l : log_line) : bool :=
  match ll_result l with Some (Unseen, _, _) => true | _ => false end.
Definition is_updated (l : log_line) : bool :=
  match ll_result l with Some (Updated _, _, _) => true | _ => false end.
(** The classifications that write the cache: Unseen and Updated. *)
Definition is_change (l : log_line) : bool :=
  match ll_result l with
  | Some (Unseen, _, _) | Some (Updated _, _, _) => true
  | _ => false
  end.

Definition nullb {A} (l : list A) : bool := match l with [] => true | _ => false end.

(** The version written by the last Unseen or Updated line for [app_id]. *)
Definition last_write (app_id : pystr) (log : list log_line) : option pystr :=
  fold_left (fun acc l =>
               if str_eqb (ll_id l) app_id then
                 match ll_result l with
                 | Some (Unseen, _, v) | Some (Updated _, _, v) => Some v
                 | _ => acc
                 end
               else acc) log None.

Definition count_saves (evs : list event) : nat :=
  length (List.filter (fun ev => match ev with EvSave _ => true | _ => false end) evs).
Definition count_notifies (evs : list event) : nat :=
  length (List.filter (fun ev => match ev with EvNotify _ _ _ _ => true | _ => false end) evs).
Definition count_posts (evs : list event) : nat :=
  length (List.filter (fun ev => match ev with EvPost _ => true | _ => false end) evs).

Lemma nullb_app_single {A} (l : list A) (x : A) : nullb (l ++ [x]) = false.
Proof. destruct l; reflexivity. Qed.

Lemma is_change_split (l : log_line) : is_change l = is_unseen l || is_updated l.
Proof. unfold is_change, is_unseen, is_updated. destruct (ll_result l) as [[[[] ?] ?]|]; reflexivity. Qed.

Lemma existsb_change_split (log : list log_line) :
  existsb is_change log = existsb is_unseen log || existsb is_updated log.
Proof.
  induction log as [|l log IH]; [reflexivity|]. simpl. rewrite IH, is_change_split.
  destruct (is_unseen l), (is_updated l), (existsb is_unseen log), (existsb is_updated log);
    reflexivity.
Qed.

Lemma last_write_snoc (app_id : pystr) (log : list log_line) (l : log_line) :
  last_write app_id (log ++ [l]) =
  if str_eqb (ll_id l) app_id then
    match ll_result l with
    | Some (Unseen, _, v) | Some (Updated _, _, v) => Some v
    | _ => last_write app_id log
    end
  else last_write app_id log.
Proof. unfold last_write. rewrite fold_left_app. reflexivity. Qed.

Section PassFacts.

Variable py_lower : pystr -> pystr.
Variable py_upper : pystr -> pystr.
Variable fromisoformat : pystr -> option datetime.
Variable now_iso : pystr.
Variable post : request -> post_response.
Variable resolve : pystr -> option app_info.

Abbreviation check_one := (check_one py_upper fromisoformat now_iso resolve).
Abbreviation run_pass := (run_pass py_upper fromisoformat now_iso resolve).
Abbreviation check_updates := (check_updates py_lower py_upper fromisoformat now_iso post resolve).
Abbreviation notify_and_save := (notify_and_save py_lower post).

(** The cache entry [check_one] writes for a resolved record. *)
Definition entry_for (info : app_info) : cache_entry :=
  new_entry now_iso (default (py "0.0") (ai_version info))
    (default (py "Unknown App") (ai_trackName info))
    (default (py "us") (ai_detected_region info)) (default [] (ai_artworkUrl100 info)).

(** How [check_one] classifies a resolved record against the working
    cache. *)
Definition code_classification (is_first_run : bool) (cache : gmap pystr cache_entry)
    (app_id : pystr) (info : app_info) : classification :=
  let version := default (py "0.0") (ai_version info) in
  let old := old_version_of cache app_id in
  if is_first_run then Unseen
  else if str_eqb old version then Unchanged else Updated old.

Lemma check_one_resolved (is_first_run : bool) (st : run_state) (app_id : pystr)
    (info : app_info) :
  resolve app_id = Some info ->
  let cls := code_classification is_first_run (rs_cache st) app_id info in
  rs_log (check_one is_first_run st app_id)
  = rs_log st ++ [mkLogLine app_id (Some (cls, default (py "Unknown App") (ai_trackName info),
                                           default (py "0.0") (ai_version info)))] /\
  rs_cache (check_one is_first_run st app_id)
  = match cls with
    | Unchanged => rs_cache st
    | _ => <[app_id := entry_for info]> (rs_cache st)
    end.
Proof.
  intros Hr. unfold check_one, code_classification. rewrite Hr. simpl.
  destruct is_first_run; simpl; [split; reflexivity|].
  destruct (str_eqb (old_version_of (rs_cache st) app_id) (default (py "0.0") (ai_version info)));
    simpl; split; reflexivity.
Qed.

Lemma check_one_unresolved (is_first_run : bool) (st : run_state) (app_id : pystr) :
  resolve app_id = None ->
  check_one is_first_run st app_id
  = mkRunState (rs_cache st) (rs_all_current_apps st) (rs_updated_apps st)
      (rs_log st ++ [mkLogLine app_id None]).
Proof. intros Hr. unfold check_one. now rewrite Hr. Qed.

(** The lists of the run state agree with the console log. *)
Definition lists_match_log (is_first_run : bool) (st : run_state) : Prop :=
  nullb (rs_all_current_apps st) = negb (existsb is_unseen (rs_log st)) /\
  nullb (rs_updated_apps st) = negb (existsb is_updated (rs_log st)) /\
  (is_first_run = true -> existsb is_updated (rs_log st) = false) /\
  (is_first_run = false -> existsb is_unseen (rs_log st) = false).

Lemma check_one_lists (is_first_run : bool) (st : run_state) (app_id : pystr) :
  lists_match_log is_first_run st ->
  lists_match_log is_first_run (check_one is_first_run st app_id).
Proof.
  intros (H1 & H2 & H3 & H4). unfold check_one, lists_match_log.
  destruct (resolve app_id) as [info|]; simpl.
  - destruct is_first_run; simpl.
    + rewrite !existsb_app, nullb_app_single. simpl.
      rewrite !orb_false_r, orb_true_r. repeat split; auto; discriminate.
    + destruct (str_eqb _ _); simpl; rewrite !existsb_app; simpl;
        rewrite ?nullb_app_single, ?orb_false_r, ?orb_true_r;
        repeat split; auto; discriminate.
  - rewrite !existsb_app. simpl. rewrite !orb_false_r. repeat split; auto.
Qed.

Lemma fold_check_one_lists (is_first_run : bool) (ids : list pystr) (st : run_state) :
  lists_match_log is_first_run st ->
  lists_match_log is_first_run (fold_left (check_one is_first_run) ids st).
Proof.
  revert st. induction ids as [|i ids IH]; intros st H; simpl; [exact H|].
  apply IH. now apply check_one_lists.
Qed.

Lemma run_pass_lists (is_first_run : bool) (ids : list pystr) (cache : gmap pystr cache_entry) :
  lists_match_log is_first_run (run_pass is_first_run ids cache).
Proof.
  apply fold_check_one_lists. repeat split; reflexivity.
Qed.

Lemma run_pass_nil (is_first_run : bool) (cache : gmap pystr cache_entry) :
  rs_log (run_pass is_first_run [] cache) = [].
Proof. reflexivity. Qed.

(** Every run either does nothing observable, or calls [send_notification]
    once and then [save_version_cache]; the second case happens exactly
    when some line of the pass is Unseen or Updated. *)
Lemma check_updates_shape (e : env) (ids : list pystr) (cache : gmap pystr cache_entry) :
  let st := run_pass (bool_decide (size cache = 0%nat)) ids cache in
  (existsb is_change (rs_log st) = false /\ check_updates e ids cache = []) \/
  (existsb is_change (rs_log st) = true /\
   exists t c u i, check_updates e ids cache = notify_and_save e t c u i (rs_cache st)).
Proof.
  simpl. destruct ids as [|id ids'] eqn:Hids.
  - left. split; reflexivity.
  - rewrite <- Hids.
    assert (Hne : check_updates e ids cache =
      (let is_first_run := bool_decide (size cache = 0%nat) in
       let st := run_pass is_first_run ids cache in
       let incremental :=
         match rs_updated_apps st with
         | [] => []
         | [app] =>
             notify_and_save e (title_single (ad_name app))
               (build_app_detail app true) (ad_url app) (ad_icon app) (rs_cache st)
         | first_app :: _ =>
             let apps := rs_updated_apps st in
             let details := py_join (NL ++ NL) (map (fun a => build_app_detail a true) apps) in
             notify_and_save e (title_multi (length apps))
               (content_multi_prefix ++ details)
               (ad_url first_app) (ad_icon first_app) (rs_cache st)
         end in
       if is_first_run then
         match rs_all_current_apps st with
         | [] => incremental
         | first_app :: _ =>
             let apps := rs_all_current_apps st in
             let details := py_join (NL ++ NL) (map (fun a => build_app_detail a false) apps) in
             notify_and_save e (title_init (length apps))
               (content_init_prefix ++ details)
               (ad_url first_app) (ad_icon first_app) (rs_cache st)
         end
       else incremental)) by (subst ids; reflexivity).
    rewrite Hne. clear Hne. simpl.
    set (first := bool_decide (size cache = 0%nat)).
    destruct (run_pass_lists first ids cache) as (H1 & H2 & H3 & H4).
    set (st := run_pass first ids cache) in *.
    rewrite existsb_change_split.
    destruct (rs_updated_apps st) as [|a [|b rest]] eqn:Hu; simpl in H2;
    destruct (rs_all_current_apps st) as [|c rest'] eqn:Ha; simpl in H1;
    destruct first eqn:Hf;
    destruct (existsb is_unseen (rs_log st)), (existsb is_updated (rs_log st));
    simpl in *; try discriminate;
    try (specialize (H3 eq_refl); discriminate);
    try (specialize (H4 eq_refl); discriminate);
    try (left; split; reflexivity);
    (right; split; [reflexivity | do 4 eexists; reflexivity]).
Qed.

Lemma count_posts_map (reqs : list request) :
  count_saves (map EvPost reqs) = 0%nat /\ count_notifies (map EvPost reqs) = 0%nat.
Proof. induction reqs as [|r reqs IH]; [split; reflexivity|]. exact IH. Qed.

Lemma notify_and_save_counts (e : env) (t c u i : pystr) (cache : gmap pystr cache_entry) :
  count_saves (notify_and_save e t c u i cache) = 1%nat /\
  count_notifies (notify_and_save e t c u i cache) = 1%nat.
Proof.
  unfold notify_and_save. destruct (send_notification py_lower post e t c u i) as [ok reqs].
  unfold count_saves, count_notifies. rewrite !List.filter_app, !length_app.
  destruct (count_posts_map reqs) as [Hs Hn]. unfold count_saves, count_notifies in Hs, Hn.
  rewrite Hs, Hn. split; reflexivity.
Qed.

End PassFacts.

(** ** Helpers for the statements *)

Definition is_resolved (l : log_line) : bool :=
  match ll_result l with Some _ => true | None => false end.

Fixpoint is_prefixb (p s : pystr) : bool :=
  match p, s with
  | [], _ => true
  | x :: p', y :: s' => (x =? y)%Z && is_prefixb p' s'
  | _ :: _, [] => false
  end.

Fixpoint is_infixb (p s : pystr) : bool :=
  is_prefixb p s || match s with [] => false | _ :: s' => is_infixb p s' end.

(** The backend configurations under which [send_notification] skips. *)
Definition dispatch_skipped (py_lower : pystr -> pystr) (e : env) : Prop :=
  let m := get_push_method py_lower e in
  (m = py "bark" /\ get_bark_key e = []) \/
  (m = py "telegram" /\ (fst (get_telegram_config e) = [] \/ snd (get_telegram_config e) = [])) \/
  (m <> py "bark" /\ m <> py "telegram").

(** The first three lines of the [build_app_detail] f-string, before the
    notes. *)
Definition detail_head (app : app_data) (show_old_version : bool) : pystr :=
  [128241; 32]%Z ++ ad_name app
  ++ (if show_old_version && truthy (ad_old_version app)
      then [65288]%Z ++ ad_old_version app ++ [8594]%Z else [])
  ++ ad_version app ++ [32; 128241]%Z
  ++ [10; 22320; 21306; 58; 32]%Z ++ ad_region app
  ++ [32; 124; 32; 26356; 26032; 26102; 38388; 58; 32]%Z
  ++ ad_release app ++ [10]%Z ++ repeat 9473%Z 15 ++ [10]%Z.

Definition with_notes (app : app_data) (n : pystr) : app_data :=
  mkAppData (ad_id app) (ad_name app) (ad_version app) (ad_region app) (ad_icon app)
    (ad_old_version app) n (ad_release app) (ad_url app).

Lemma existsb_change_first_run (log : list log_line) :
  forallb (fun l => negb (is_resolved l) || is_unseen l) log = true ->
  existsb is_change log = existsb is_resolved log.
Proof.
  induction log as [|l log IH]; simpl; [reflexivity|].
  intros H. apply andb_prop in H as [Hl Hrest]. rewrite IH by exact Hrest.
  unfold is_change, is_resolved, is_unseen in *.
  destruct (ll_result l) as [[[[] ?] ?]|]; simpl in *; congruence.
Qed.

Section RunClaims.

Variable py_lower : pystr -> pystr.
Variable py_upper : pystr -> pystr.
Variable fromisoformat : pystr -> option datetime.
Variable now_iso : pystr.
Variable post : request -> post_response.
Variable resolve : pystr -> option app_info.

Abbreviation check_one := (check_one py_upper fromisoformat now_iso resolve).
Abbreviation run_pass := (run_pass py_upper fromisoformat now_iso resolve).
Abbreviation check_updates := (check_updates py_lower py_upper fromisoformat now_iso post resolve).
Abbreviation notify_and_save := (notify_and_save py_lower post).

Lemma fold_first_run_lines (ids : list pystr) (st : run_state) :
  forallb (fun l => negb (is_resolved l) || is_unseen l) (rs_log st) = true ->
  forallb (fun l => negb (is_resolved l) || is_unseen l)
    (rs_log (fold_left (check_one true) ids st)) = true.
Proof.
  revert st. induction ids as [|i ids IH]; intros st H; simpl; [exact H|].
  apply IH. destruct (resolve i) as [info|] eqn:Hr.
  - destruct (check_one_resolved py_upper fromisoformat now_iso resolve true st i info Hr)
      as [Hl _].
    rewrite Hl, forallb_app, H. reflexivity.
  - rewrite (check_one_unresolved py_upper fromisoformat now_iso resolve true st i Hr). simpl.
    rewrite forallb_app, H. reflexivity.
Qed.

Lemma fold_cache_versions (cache0 : gmap pystr cache_entry) (is_first_run : bool)
    (ids : list pystr) (st : run_state) :
  (forall id, ce_version <$> (rs_cache st !! id)
              = match last_write id (rs_log st) with
                | Some v => Some (Some v)
                | None => ce_version <$> (cache0 !! id)
                end) ->
  forall id, ce_version <$> (rs_cache (fold_left (check_one is_first_run) ids st) !! id)
             = match last_write id (rs_log (fold_left (check_one is_first_run) ids st)) with
               | Some v => Some (Some v)
               | None => ce_version <$> (cache0 !! id)
               end.
Proof.
  revert st. induction ids as [|a ids IH]; intros st H; simpl; [exact H|].
  apply IH. intros id.
  destruct (resolve a) as [info|] eqn:Hr.
  - destruct (check_one_resolved py_upper fromisoformat now_iso resolve is_first_run st a info Hr)
      as [Hl Hc].
    rewrite Hl, Hc, last_write_snoc. simpl.
    destruct (code_classification is_first_run (rs_cache st) a info) eqn:Ecls;
      [| |]; unfold str_eqb;
      (destruct (decide (a = id)) as [<-|Hne];
       [rewrite ?lookup_insert_eq, bool_decide_true by reflexivity
       |rewrite ?lookup_insert_ne by exact Hne;
        rewrite bool_decide_false by exact Hne]); try reflexivity; try apply H.
  - rewrite (check_one_unresolved py_upper fromisoformat now_iso resolve is_first_run st a Hr).
    simpl. rewrite last_write_snoc. simpl.
    destruct (str_eqb a id); apply H.
Qed.

(** C1 (amended): for a resolved record, the class a step prints depends
    on whether the run is a first run (the cache was empty at load) and on
    the cached version string [cache.get(app_id, {}).get("version", "")]
    of the working cache, the empty string when the id has no entry: on a
    first run it is Unseen; otherwise Unchanged when the cached string
    equals the fresh version exactly, and Updated with the cached string
    otherwise. *)
Theorem check_one_classification (is_first_run : bool) (st : run_state)
    (app_id : pystr) (info : app_info) :
  resolve app_id = Some info ->
  let version := default (py "0.0") (ai_version info) in
  let old := match rs_cache st !! app_id with
             | Some ent => default [] (ce_version ent)
             | None => []
             end in
  rs_log (check_one is_first_run st app_id)
  = rs_log st ++
    [mkLogLine app_id
       (Some (if is_first_run then Unseen
              else if bool_decide (old = version) then Unchanged else Updated old,
              default (py "Unknown App") (ai_trackName info), version))].
Proof.
  intros Hr. destruct (check_one_resolved py_upper fromisoformat now_iso resolve
                         is_first_run st app_id info Hr) as [Hl _].
  rewrite Hl. reflexivity.
Qed.

(** C4: a run saves the cache exactly as often as it calls
    [send_notification], at most once, and it does so exactly when some
    resolved id is Unseen or Updated; on a first run that is exactly when
    some id resolved. *)
Theorem check_updates_saves_iff_notified (e : env) (ids : list pystr)
    (cache : gmap pystr cache_entry) :
  let is_first_run := bool_decide (size cache = 0%nat) in
  let log := rs_log (run_pass is_first_run ids cache) in
  count_saves (check_updates e ids cache) = count_notifies (check_updates e ids cache) /\
  count_saves (check_updates e ids cache) = (if existsb is_change log then 1%nat else 0%nat) /\
  (is_first_run = true -> existsb is_change log = existsb is_resolved log).
Proof.
  simpl. split; [|split].
  - destruct (check_updates_shape py_lower py_upper fromisoformat now_iso post resolve e ids cache)
      as [[_ ->]|[_ (t & c & u & i & ->)]]; [reflexivity|].
    destruct (notify_and_save_counts py_lower post e t c u i
                (rs_cache (run_pass (bool_decide (size cache = 0%nat)) ids cache))) as [-> ->].
    reflexivity.
  - destruct (check_updates_shape py_lower py_upper fromisoformat now_iso post resolve e ids cache)
      as [[-> ->]|[-> (t & c & u & i & ->)]]; [reflexivity|].
    apply (notify_and_save_counts py_lower post).
  - intros Hf. rewrite Hf. apply existsb_change_first_run.
    apply fold_first_run_lines. reflexivity.
Qed.

(** C5: with a Bark backend and no key, a Telegram backend missing its
    token or chat id, or an unknown backend name, [send_notification]
    returns [False] and sends nothing; a run with a pending change still
    saves the cache after that call. *)
Theorem send_notification_skips_without_credentials (e : env) :
  dispatch_skipped py_lower e ->
  (forall title content url icon,
     send_notification py_lower post e title content url icon = (false, [])) /\
  (forall (ids : list pystr) (cache : gmap pystr cache_entry),
     let st := run_pass (bool_decide (size cache = 0%nat)) ids cache in
     existsb is_change (rs_log st) = true ->
     exists title content url icon,
       check_updates e ids cache = [EvNotify title content url icon; EvSave (rs_cache st)]).
Proof.
  intros Hskip.
  assert (Hsend : forall title content url icon,
            send_notification py_lower post e title content url icon = (false, [])).
  { intros title content url icon. unfold send_notification, str_eqb.
    destruct Hskip as [[Hm Hk]|[[Hm Htc]|[Hb Ht]]].
    - rewrite Hm, bool_decide_true by reflexivity. rewrite Hk. reflexivity.
    - rewrite Hm. rewrite bool_decide_false by (vm_compute; discriminate).
      rewrite bool_decide_true by reflexivity. unfold get_telegram_config in *. simpl in *.
      destruct Htc as [->| ->]; [reflexivity|].
      destruct (truthy (default [] (TELEGRAM_BOT_TOKEN e))); reflexivity.
    - rewrite bool_decide_false by exact Hb. rewrite bool_decide_false by exact Ht.
      reflexivity. }
  split; [exact Hsend|].
  intros ids cache st Hch.
  destruct (check_updates_shape py_lower py_upper fromisoformat now_iso post resolve e ids cache)
    as [[Hno _]|[_ (t & c & u & i & Hev)]].
  - simpl in Hno. unfold st in Hch. congruence.
  - exists t, c, u, i. rewrite Hev. unfold notify_and_save. rewrite Hsend. reflexivity.
Qed.

(** C6 (amended): on a run that is not a first run, one Updated
    application gives the title naming it and the body
    [build_app_detail(app, show_old_version=True)]; several give a title
    with the count and a body made of a fixed header followed by the same
    per-application blocks joined by blank lines, with no numbering. Every
    block ends with the release notes, shown verbatim up to 150 code points
    and otherwise cut to their first 147 followed by "...". *)
Theorem check_updates_incremental_body (e : env) (ids : list pystr)
    (cache : gmap pystr cache_entry) :
  ids <> [] -> size cache <> 0%nat ->
  let st := run_pass false ids cache in
  check_updates e ids cache =
    match rs_updated_apps st with
    | [] => []
    | [app] =>
        notify_and_save e (title_single (ad_name app)) (build_app_detail app true)
          (ad_url app) (ad_icon app) (rs_cache st)
    | first_app :: _ =>
        notify_and_save e (title_multi (length (rs_updated_apps st)))
          (content_multi_prefix ++
           py_join (NL ++ NL) (map (fun a => build_app_detail a true) (rs_updated_apps st)))
          (ad_url first_app) (ad_icon first_app) (rs_cache st)
    end /\
  (forall (app : app_data) (show_old_version : bool) (n : pystr),
     build_app_detail (with_notes app n) show_old_version
     = detail_head app show_old_version ++
       (if (length n <=? 150)%nat then n else firstn 147 n ++ py "...")).
Proof.
  intros Hids Hsize. split.
  - destruct ids as [|id ids']; [congruence|].
    unfold check_updates. rewrite bool_decide_false by exact Hsize. cbv zeta.
    destruct (rs_updated_apps (run_pass false (id :: ids') cache)) as [|a [|b r]];
      reflexivity.
  - intros app show n. unfold build_app_detail, detail_head, with_notes. simpl.
    destruct (Nat.ltb_spec 150 (length n)), (Nat.leb_spec (length n) 150); try lia;
      repeat progress (simpl; rewrite <- ?app_assoc); reflexivity.
Qed.

Lemma truthy_nonempty (s : pystr) : s <> [] -> truthy s = true.
Proof. intros H. unfold truthy. rewrite bool_decide_false by exact H. reflexivity. Qed.

(** C7 (amended): with the Telegram backend configured, dispatch posts one
    JSON message to [sendMessage] whose text is the bold title, a blank
    line and the body, in Markdown; the link and the icon are not part of
    the request. *)
Theorem send_notification_telegram_single_message (e : env)
    (title content url icon : pystr) :
  get_push_method py_lower e = py "telegram" ->
  fst (get_telegram_config e) <> [] -> snd (get_telegram_config e) <> [] ->
  snd (send_notification py_lower post e title content url icon)
  = [PostJson (TELEGRAM_API ++ fst (get_telegram_config e) ++ py "/sendMessage")
       (JObj [(py "chat_id", JStr (snd (get_telegram_config e)));
              (py "text", JStr (py "*" ++ title ++ py "*" ++ NL ++ NL ++ content));
              (py "parse_mode", JStr (py "Markdown"));
              (py "disable_web_page_preview", JBool false)])].
Proof.
  intros Hm Htok Hchat. unfold send_notification, str_eqb. rewrite Hm.
  rewrite bool_decide_false by (vm_compute; discriminate).
  rewrite bool_decide_true by reflexivity.
  unfold get_telegram_config in *. simpl in *.
  rewrite (truthy_nonempty _ Htok), (truthy_nonempty _ Hchat). reflexivity.
Qed.

(** C8: a step that classifies a resolved id as Unseen or Updated writes
    a whole new entry for it into the working cache (all five fields, the
    version being the fresh one) and Unchanged or unresolved steps leave
    the cache as it is; so after any prefix of the pass, the version
    cached for an id is the version of the last record that caused a
    write for it, or the loaded one when none did. *)
Theorem check_one_cache_writes :
  (forall (is_first_run : bool) (st : run_state) (app_id : pystr) (info : app_info),
     resolve app_id = Some info ->
     exists cls name version,
       rs_log (check_one is_first_run st app_id)
       = rs_log st ++ [mkLogLine app_id (Some (cls, name, version))] /\
       rs_cache (check_one is_first_run st app_id)
       = match cls with
         | Unchanged => rs_cache st
         | _ => <[app_id := entry_for now_iso info]> (rs_cache st)
         end /\
       entry_for now_iso info
       = mkCacheEntry (Some version) (Some name)
           (Some (default (py "us") (ai_detected_region info)))
           (Some (default [] (ai_artworkUrl100 info))) (Some now_iso)) /\
  (forall (is_first_run : bool) (st : run_state) (app_id : pystr),
     resolve app_id = None -> rs_cache (check_one is_first_run st app_id) = rs_cache st) /\
  (forall (is_first_run : bool) (ids : list pystr) (cache0 : gmap pystr cache_entry)
          (id : pystr),
     let st := run_pass is_first_run ids cache0 in
     ce_version <$> (rs_cache st !! id)
     = match last_write id (rs_log st) with
       | Some v => Some (Some v)
       | None => ce_version <$> (cache0 !! id)
       end).
Proof.
  split; [|split].
  - intros is_first_run st app_id info Hr.
    destruct (check_one_resolved py_upper fromisoformat now_iso resolve
                is_first_run st app_id info Hr) as [Hl Hc].
    eexists _, _, _. split; [exact Hl|]. split; [exact Hc|reflexivity].
  - intros is_first_run st app_id Hr.
    rewrite (check_one_unresolved py_upper fromisoformat now_iso resolve is_first_run st app_id Hr).
    reflexivity.
  - intros is_first_run ids cache0 id. apply fold_cache_versions.
    intros i. reflexivity.
Qed.

End RunClaims.

(** ** format_datetime *)

(** C10 (amended): [format_datetime] returns a string for every input
    string: "未知" for the empty string; when [fromisoformat] accepts the
    input with every "Z" replaced by "+00:00" and the wall clock moved
    eight hours forward stays within year 9999, that time as
    "%Y-%m-%d %H:%M"; otherwise (not accepted, or the shift overflows past
    year 9999) the first 16 characters. *)
Theorem format_datetime_cases (fromisoformat : pystr -> option datetime) (s : pystr) :
  (s = [] -> format_datetime fromisoformat s = UNKNOWN_TIME) /\
  (forall dt, s <> [] ->
     fromisoformat (str_replace_char 90%Z (py "+00:00") s) = Some dt ->
     (dt_year (shift_8_hours dt) <= MAXYEAR)%Z ->
     format_datetime fromisoformat s = strftime_ymdhm (shift_8_hours dt)) /\
  (s <> [] ->
     (fromisoformat (str_replace_char 90%Z (py "+00:00") s) = None \/
      exists dt, fromisoformat (str_replace_char 90%Z (py "+00:00") s) = Some dt /\
                 (MAXYEAR < dt_year (shift_8_hours dt))%Z) ->
     format_datetime fromisoformat s = firstn 16 s).
Proof.
  split; [|split].
  - intros ->. reflexivity.
  - intros dt Hs Hp Hy. unfold format_datetime.
    rewrite (truthy_nonempty _ Hs). simpl. rewrite Hp. unfold add_8_hours.
    apply Z.leb_le in Hy. rewrite Hy. reflexivity.
  - intros Hs Hcase. unfold format_datetime.
    rewrite (truthy_nonempty _ Hs). simpl.
    destruct Hcase as [Hp|(dt & Hp & Hy)]; rewrite Hp; [reflexivity|].
    unfold add_8_hours. apply Z.leb_gt in Hy. rewrite Hy. reflexivity.
Qed.

Definition iso_sample : pystr := py "2024-02-28T20:30:00Z".

Lemma format_datetime_cases_witness :
  format_datetime iso_basic iso_sample
  = strftime_ymdhm (shift_8_hours (mkDatetime 2024 2 28 20 30 0 0 (Some 0%Z))).
Proof.
  apply (proj1 (proj2 (format_datetime_cases iso_basic iso_sample))).
  - discriminate.
  - vm_compute. reflexivity.
  - vm_compute. discriminate.
Defined.

Definition iso_9999 : pystr := py "9999-12-31T23:00:00".

(** C10 counterexample: an accepted timestamp whose +8 hour shift passes
    year 9999 makes [dt + timedelta(hours=8)] raise [OverflowError]; the
    bare [except] returns the first 16 characters, not the shifted time. *)
Lemma format_datetime_overflow_cex :
  iso_basic (str_replace_char 90%Z (py "+00:00") iso_9999)
    = Some (mkDatetime 9999 12 31 23 0 0 0 None) /\
  format_datetime iso_basic iso_9999 = py "9999-12-31T23:00" /\
  format_datetime iso_basic iso_9999
    <> strftime_ymdhm (shift_8_hours (mkDatetime 9999 12 31 23 0 0 0 None)).
Proof.
  split; [vm_compute; reflexivity|]. split; [vm_compute; reflexivity|].
  vm_compute. discriminate.
Qed.

(** ** Concrete runs *)

(** [str.lower] and [str.upper] on ASCII letters. *)
Definition ascii_lower (s : pystr) : pystr :=
  map (fun c => if ((65 <=? c) && (c <=? 90))%Z then (c + 32)%Z else c) s.
Definition ascii_upper (s : pystr) : pystr :=
  map (fun c => if ((97 <=? c) && (c <=? 122))%Z then (c - 32)%Z else c) s.

Definition now_sample : pystr := py "2026-10-16T09:00:00".

Definition post_ok (req : request) : post_response :=
  PostReply 200 (Some (JObj [(py "ok", JBool true)])).

Definition app_link : pystr := py "https://apps.apple.com/app/id414478124".

Definition sample_info (v notes : pystr) : app_info :=
  mkAppInfo (Some (py "WeChat")) (Some v) (Some notes) (Some app_link)
    (Some (py "2026-10-01T08:00:00Z")) (Some (py "cn"))
    (Some (py "https://is1.mzstatic.com/icon.png")).

Definition entry_v (v : pystr) : cache_entry :=
  mkCacheEntry (Some v) (Some (py "WeChat")) (Some (py "cn")) None None.

(** A cache that knows another application only. *)
Definition cache_X : gmap pystr cache_entry := {[ py "X" := entry_v (py "1.0") ]}.

Definition resolve_A (app_id : pystr) : option app_info :=
  if str_eqb app_id (py "A") then Some (sample_info (py "2.0") (py "Bug fixes.")) else None.

(** C1 counterexample: the cache is not empty and has no entry for "A";
    the code classifies the fresh record as Updated with the empty old
    version, where the claim expects Unseen. *)
Lemma check_one_absent_entry_cex :
  cache_X !! py "A" = None /\
  bool_decide (size cache_X = 0%nat) = false /\
  map ll_result (rs_log (run_pass ascii_upper iso_basic now_sample resolve_A
                           (bool_decide (size cache_X = 0%nat)) [py "A"] cache_X))
  = [Some (Updated [], py "WeChat", py "2.0")].
Proof. split; [|split]; vm_compute; reflexivity. Qed.

Lemma check_one_classification_witness :
  rs_log (check_one ascii_upper iso_basic now_sample resolve_A false
            (start_state cache_X) (py "A"))
  = [mkLogLine (py "A") (Some (Updated [], py "WeChat", py "2.0"))].
Proof.
  exact (check_one_classification ascii_upper iso_basic now_sample resolve_A false
           (start_state cache_X) (py "A") (sample_info (py "2.0") (py "Bug fixes."))
           eq_refl).
Defined.

Definition env_bark : env := mkEnv None (Some (py "k3y")) None None.
Definition env_telegram : env :=
  mkEnv (Some (py "Telegram")) None (Some (py "123:abc")) (Some (py "42")).
Definition env_telegram_no_chat : env :=
  mkEnv (Some (py "telegram")) None (Some (py "123:abc")) None.

(** First run: the cache is empty and "A" resolves. *)
Lemma check_updates_saves_iff_notified_witness :
  existsb is_change
    (rs_log (run_pass ascii_upper iso_basic now_sample resolve_A
               (bool_decide (size (∅ : gmap pystr cache_entry) = 0%nat)) [py "A"] ∅))
  = existsb is_resolved
    (rs_log (run_pass ascii_upper iso_basic now_sample resolve_A
               (bool_decide (size (∅ : gmap pystr cache_entry) = 0%nat)) [py "A"] ∅)).
Proof.
  apply (proj2 (proj2 (check_updates_saves_iff_notified ascii_lower ascii_upper iso_basic
                         now_sample post_ok resolve_A env_bark [py "A"] ∅))).
  vm_compute. reflexivity.
Defined.

Lemma send_notification_skips_without_credentials_witness :
  send_notification ascii_lower post_ok env_telegram_no_chat (py "title") (py "body")
    app_link [] = (false, []).
Proof.
  apply (proj1 (send_notification_skips_without_credentials ascii_lower ascii_upper iso_basic
                  now_sample post_ok resolve_A env_telegram_no_chat
                  ltac:(right; left; split; [reflexivity | right; reflexivity]))).
Defined.

(** An incremental run with two updates, each with 150 code points of
    notes. *)
Definition notes150 : pystr := repeat 97%Z 150.

Definition cache_AB : gmap pystr cache_entry :=
  {[ py "A" := entry_v (py "1.0"); py "B" := entry_v (py "1.0") ]}.

Definition resolve_AB (app_id : pystr) : option app_info :=
  if str_eqb app_id (py "A") then Some (sample_info (py "2.0") notes150)
  else if str_eqb app_id (py "B") then Some (sample_info (py "3.0") notes150)
  else None.

Lemma check_updates_incremental_body_witness :
  build_app_detail (with_notes (mkAppData (py "A") (py "WeChat") (py "2.0") (py "CN") []
                                  (py "1.0") [] (py "2026-10-01 16:00") app_link)
                      (repeat 98%Z 151)) true
  = detail_head (mkAppData (py "A") (py "WeChat") (py "2.0") (py "CN") []
                   (py "1.0") [] (py "2026-10-01 16:00") app_link) true
    ++ firstn 147 (repeat 98%Z 151) ++ py "...".
Proof.
  exact (proj2 (check_updates_incremental_body ascii_lower ascii_upper iso_basic now_sample
                  post_ok resolve_AB env_bark [py "A"; py "B"] cache_AB
                  ltac:(discriminate) ltac:(vm_compute; discriminate))
           _ true (repeat 98%Z 151)).
Defined.

(** C6 counterexample: with two updates the body is the header followed
    by the two detail blocks; each block starts with "📱 " (no number),
    and the 150-code-point notes appear in full, so the per-entry limit is
    not shorter than the single-update one. *)
Lemma check_updates_multi_body_cex :
  length notes150 = 150%nat /\
  match check_updates ascii_lower ascii_upper iso_basic now_sample post_ok resolve_AB
          env_bark [py "A"; py "B"] cache_AB with
  | EvNotify title content _ _ :: _ =>
      title = title_multi 2 /\
      firstn 2 (drop (length content_multi_prefix) content) = [128241; 32]%Z /\
      is_infixb notes150 content = true
  | _ => False
  end.
Proof.
  split; [reflexivity|]. vm_compute. split; [reflexivity|]. split; reflexivity.
Qed.

Lemma send_notification_telegram_single_message_witness :
  snd (send_notification ascii_lower post_ok env_telegram (py "title") (py "body") app_link [])
  = [PostJson (TELEGRAM_API ++ py "123:abc" ++ py "/sendMessage")
       (JObj [(py "chat_id", JStr (py "42"));
              (py "text", JStr (py "*" ++ py "title" ++ py "*" ++ NL ++ NL ++ py "body"));
              (py "parse_mode", JStr (py "Markdown"));
              (py "disable_web_page_preview", JBool false)])].
Proof.
  apply (send_notification_telegram_single_message ascii_lower post_ok env_telegram).
  - reflexivity.
  - discriminate.
  - discriminate.
Defined.

(** C7 counterexample: Telegram dispatch with a store link posts a single
    message whose text does not contain the link. *)
Lemma send_notification_telegram_no_link_cex :
  match snd (send_notification ascii_lower post_ok env_telegram (py "title") (py "body")
               app_link []) with
  | [PostJson _ (JObj fields)] =>
      match obj_get fields (py "text") with
      | Some (JStr text) => is_infixb app_link text = false
      | _ => False
      end
  | _ => False
  end.
Proof. vm_compute. reflexivity. Qed.

Lemma check_one_cache_writes_witness :
  rs_cache (check_one ascii_upper iso_basic now_sample resolve_A false
              (start_state cache_X) (py "Z")) = cache_X.
Proof.
  apply (proj1 (proj2 (check_one_cache_writes ascii_upper iso_basic now_sample resolve_A))).
  reflexivity.
Defined.

(** * Further properties of the program *)

Lemma drop_while_split (p : Z -> bool) (s : pystr) :
  exists pre, s = pre ++ drop_while p s /\ forallb p pre = true.
Proof.
  induction s as [|c s IH]; simpl; [exists []; split; reflexivity|].
  destruct (p c) eqn:Hc; [|exists []; split; reflexivity].
  destruct IH as [pre [Hs Hf]]. exists (c :: pre). simpl. rewrite Hc, Hf. split; [congruence|reflexivity].
Qed.

Lemma drop_while_head (p : Z -> bool) (s : pystr) :
  match drop_while p s with [] => True | c :: _ => p c = false end.
Proof.
  induction s as [|c s IH]; simpl; [exact I|]. destruct (p c) eqn:Hc; [exact IH|exact Hc].
Qed.

Lemma drop_while_nil (p : Z -> bool) (s : pystr) :
  drop_while p s = [] <-> forallb p s = true.
Proof.
  induction s as [|c s IH]; simpl; [tauto|]. destruct (p c); simpl; [exact IH|].
  split; discriminate.
Qed.

Lemma py_strip_In (s : pystr) (x : Z) : In x (py_strip s) -> In x s.
Proof.
  unfold py_strip. intros H. apply in_rev in H.
  destruct (drop_while_split py_isspace s) as [p1 [H1 _]].
  destruct (drop_while_split py_isspace (rev (drop_while py_isspace s))) as [p2 [H2 _]].
  rewrite H1. apply in_or_app. right. apply in_rev. rewrite H2. apply in_or_app. now right.
Qed.

Lemma forallb_rev_eq (p : Z -> bool) (l : pystr) : forallb p (rev l) = forallb p l.
Proof.
  induction l as [|c l IH]; simpl; [reflexivity|].
  rewrite forallb_app, IH. simpl. rewrite andb_true_r, andb_comm. reflexivity.
Qed.

Lemma py_strip_nil (s : pystr) : py_strip s = [] <-> forallb py_isspace s = true.
Proof.
  unfold py_strip. rewrite <- (rev_involutive []). split.
  - intros H. apply rev_inj in H. simpl in H. apply drop_while_nil in H.
    rewrite forallb_rev_eq in H.
    destruct (drop_while_split py_isspace s) as [p1 [H1 Hp]].
    rewrite H1, forallb_app, Hp, H. reflexivity.
  - intros H. apply drop_while_nil in H. rewrite H. reflexivity.
Qed.

(** A string without whitespace at either end. *)
Definition edge_trimmed (s : pystr) : bool :=
  match s with
  | [] => true
  | c :: _ => negb (py_isspace c) && negb (py_isspace (List.last s 0%Z))
  end.

Lemma py_strip_trimmed (s : pystr) : edge_trimmed (py_strip s) = true.
Proof.
  unfold py_strip.
  set (t := drop_while py_isspace s).
  pose proof (drop_while_head py_isspace s) as Ht. fold t in Ht.
  destruct (drop_while_split py_isspace (rev t)) as [p2 [H2 _]].
  pose proof (drop_while_head py_isspace (rev t)) as Hu.
  set (u := drop_while py_isspace (rev t)) in *.
  destruct u as [|c u'] eqn:Eu; [reflexivity|].
  assert (Hrt : t = rev (c :: u') ++ rev p2)
    by (rewrite <- (rev_involutive t), H2, rev_app_distr; reflexivity).
  simpl in Hrt |- *.
  destruct (rev u') as [|h r] eqn:Er.
  - simpl. rewrite Hu. reflexivity.
  - simpl in Hrt. rewrite Hrt in Ht. simpl in Ht.
    assert (He : edge_trimmed ((h :: r) ++ [c])
                 = negb (py_isspace h) && negb (py_isspace (List.last ((h :: r) ++ [c]) 0%Z)))
      by reflexivity.
    rewrite He, List.last_last, Ht, Hu. reflexivity.
Qed.

Lemma py_split_no_sep (sep : Z) (s : pystr) (f : pystr) :
  In f (py_split sep s) -> ~ In sep f.
Proof.
  revert f. induction s as [|c s IH]; simpl; intros f Hf.
  - destruct Hf as [<-|[]]. simpl. tauto.
  - destruct (Z.eqb_spec c sep) as [->|Hc].
    + destruct Hf as [<-|Hf]; [simpl; tauto|]. now apply IH.
    + destruct (py_split sep s) as [|g gs] eqn:E.
      * destruct Hf as [<-|[]]. simpl. intros [H|[]]. congruence.
      * destruct Hf as [<-|Hf].
        -- simpl. intros [H|H]; [congruence|]. apply (IH g); [left; reflexivity|exact H].
        -- apply IH. now right.
Qed.

Lemma py_split_sub (sep : Z) (s : pystr) (f : pystr) (x : Z) :
  In f (py_split sep s) -> In x f -> In x s.
Proof.
  revert f. induction s as [|c s IH]; simpl; intros f Hf Hx.
  - destruct Hf as [<-|[]]. destruct Hx.
  - destruct (Z.eqb_spec c sep) as [->|Hc].
    + destruct Hf as [<-|Hf]; [destruct Hx|]. right. now apply (IH f).
    + destruct (py_split sep s) as [|g gs] eqn:E.
      * destruct Hf as [<-|[]]. destruct Hx as [->|[]]. now left.
      * destruct Hf as [<-|Hf].
        -- destruct Hx as [->|Hx]; [now left|]. right. apply (IH g); [now left|exact Hx].
        -- right. apply (IH f); [now right|exact Hx].
Qed.

Lemma py_split_cover (sep : Z) (s : pystr) (x : Z) :
  In x s -> x = sep \/ exists f, In f (py_split sep s) /\ In x f.
Proof.
  induction s as [|c s IH]; simpl; [tauto|]. intros Hx.
  destruct (Z.eqb_spec c sep) as [->|Hc].
  - destruct Hx as [<-|Hx]; [now left|].
    destruct (IH Hx) as [->|[f [Hf Hxf]]]; [now left|]. right. exists f. split; [now right|exact Hxf].
  - destruct (py_split sep s) as [|g gs] eqn:E.
    + destruct Hx as [<-|Hx].
      * right. exists [c]. split; [now left|now left].
      * destruct (IH Hx) as [->|[f [[] _]]]. now left.
    + destruct Hx as [<-|Hx].
      * right. exists (c :: g). split; [now left|now left].
      * destruct (IH Hx) as [->|[f [[<-|Hf] Hxf]]]; [now left| |].
        -- right. exists (c :: g). split; [now left|now right].
        -- right. exists f. split; [now right|exact Hxf].
Qed.

Lemma filter_nil_iff {A} (p : A -> bool) (l : list A) :
  List.filter p l = [] <-> (forall x, In x l -> p x = false).
Proof.
  induction l as [|a l IH]; simpl; [split; [tauto|reflexivity]|].
  destruct (p a) eqn:Ha; split.
  - discriminate.
  - intros H. specialize (H a (or_introl eq_refl)). congruence.
  - intros H x [<-|Hx]; [exact Ha|]. now apply IH.
  - intros H. apply IH. intros x Hx. apply H. now right.
Qed.

Lemma get_app_ids_empty_iff (s : pystr) :
  s <> [] ->
  get_app_ids (Some s) = [] <-> forallb (fun c => (c =? 44)%Z || py_isspace c) s = true.
Proof.
  intros Hs. unfold get_app_ids. simpl. rewrite (truthy_nonempty _ Hs).
  split.
  - intros H. apply map_eq_nil in H. rewrite filter_nil_iff in H.
    apply forallb_forall. intros x Hx.
    destruct (py_split_cover 44 s x Hx) as [->|[f [Hf Hxf]]]; [reflexivity|].
    specialize (H f Hf). unfold truthy in H. apply negb_false_iff, bool_decide_eq_true in H.
    apply py_strip_nil in H. rewrite forallb_forall in H. rewrite (H x Hxf). apply orb_true_r.
  - intros H. enough (Hf : List.filter (fun i => truthy (py_strip i)) (py_split 44 s) = [])
      by (rewrite Hf; reflexivity).
    apply filter_nil_iff. intros f Hf. unfold truthy. apply negb_false_iff, bool_decide_eq_true.
    apply py_strip_nil, forallb_forall. intros x Hxf.
    pose proof (py_split_sub 44 s f x Hf Hxf) as Hxs.
    rewrite forallb_forall in H. specialize (H x Hxs).
    destruct (Z.eqb_spec x 44) as [Heq|Hx]; [|exact H].
    exfalso. rewrite Heq in Hxf. exact (py_split_no_sep 44 s f Hf Hxf).
Qed.

(** X1: [get_app_ids] falls back to the test id when [APP_IDS] is unset
    or empty; a non-empty value yields no id exactly when it consists of
    commas and whitespace only, and then the run ends at once, without any
    notification or save. *)
Theorem get_app_ids_fallback_and_blank :
  get_app_ids None = TEST_APP_IDS /\ get_app_ids (Some []) = TEST_APP_IDS /\
  (forall s : pystr, s <> [] ->
     get_app_ids (Some s) = [] <-> forallb (fun c => (c =? 44)%Z || py_isspace c) s = true) /\
  (forall py_lower py_upper fromisoformat now_iso post resolve (e : env) (s : pystr)
          (cache : gmap pystr cache_entry),
     s <> [] -> forallb (fun c => (c =? 44)%Z || py_isspace c) s = true ->
     check_updates py_lower py_upper fromisoformat now_iso post resolve e
       (get_app_ids (Some s)) cache = []).
Proof.
  split; [reflexivity|]. split; [reflexivity|]. split; [exact get_app_ids_empty_iff|].
  intros py_lower py_upper fromisoformat now_iso post resolve e s cache Hs Hb.
  rewrite (proj2 (get_app_ids_empty_iff s Hs) Hb). reflexivity.
Qed.

Lemma get_app_ids_fallback_and_blank_witness :
  get_app_ids (Some (py " , ,")) = [].
Proof.
  apply (proj2 (proj1 (proj2 (proj2 get_app_ids_fallback_and_blank)) (py " , ,") ltac:(discriminate))).
  vm_compute. reflexivity.
Defined.

(** X2: every id [get_app_ids] returns is non-empty, contains no comma
    and has no whitespace at either end. *)
Theorem get_app_ids_clean (v : option pystr) (id : pystr) :
  In id (get_app_ids v) -> id <> [] /\ ~ In 44%Z id /\ edge_trimmed id = true.
Proof.
  unfold get_app_ids. destruct (truthy (default [] v)).
  - intros Hin. apply in_map_iff in Hin as [f [<- Hf]].
    apply filter_In in Hf as [Hf Ht].
    split; [|split].
    + unfold truthy in Ht. apply negb_true_iff, bool_decide_eq_false in Ht. exact Ht.
    + intros Hc. apply py_strip_In in Hc. exact (py_split_no_sep 44 _ f Hf Hc).
    + apply py_strip_trimmed.
  - intros [<-|[]]. split; [discriminate|]. split; [intros H; vm_compute in H; lia|].
    reflexivity.
Qed.

Lemma get_app_ids_clean_witness :
  In (py "123") (get_app_ids (Some (py " 123 ,,9"))) /\
  py "123" <> [] /\ ~ In 44%Z (py "123") /\ edge_trimmed (py "123") = true.
Proof.
  assert (H : In (py "123") (get_app_ids (Some (py " 123 ,,9")))) by (vm_compute; left; reflexivity).
  split; [exact H|]. exact (get_app_ids_clean _ _ H).
Defined.

Lemma obj_get_set_eq (d : jobj) (k : pystr) (v : json) : obj_get (obj_set d k v) k = Some v.
Proof.
  induction d as [|[k' v'] d IH]; simpl; unfold str_eqb.
  - rewrite bool_decide_true by reflexivity. reflexivity.
  - destruct (decide (k = k')) as [<-|Hne].
    + rewrite bool_decide_true by reflexivity. simpl. unfold str_eqb.
      rewrite bool_decide_true by reflexivity. reflexivity.
    + rewrite bool_decide_false by exact Hne. simpl. unfold str_eqb.
      rewrite bool_decide_false by exact Hne. exact IH.
Qed.

Lemma obj_get_set_ne (d : jobj) (k k' : pystr) (v : json) :
  k' <> k -> obj_get (obj_set d k v) k' = obj_get d k'.
Proof.
  intros Hk. induction d as [|[k0 v0] d IH]; simpl; unfold str_eqb.
  - rewrite bool_decide_false by exact Hk. reflexivity.
  - destruct (decide (k = k0)) as [<-|Hne].
    + rewrite bool_decide_true by reflexivity. simpl. unfold str_eqb.
      rewrite bool_decide_false by exact Hk. reflexivity.
    + rewrite bool_decide_false by exact Hne. simpl. unfold str_eqb.
      destruct (bool_decide (k' = k0)); [reflexivity|exact IH].
Qed.

Lemma resolve_regions_some lookup app_id regions qs app :
  resolve_regions lookup app_id regions = (qs, Some app) ->
  exists pre region post,
    regions = pre ++ region :: post /\ qs = map (pair app_id) (pre ++ [region]) /\
    try_region region (lookup app_id region) = IterReturn app.
Proof.
  revert qs. induction regions as [|r rs IH]; simpl; intros qs H; [discriminate|].
  destruct (try_region r (lookup app_id r)) eqn:E.
  - destruct (resolve_regions lookup app_id rs) as [q' r'] eqn:E'. injection H as <- ->.
    destruct (IH q' eq_refl) as (pre & region & post & -> & -> & Ht).
    exists (r :: pre), region, post. split; [reflexivity|]. split; [reflexivity|exact Ht].
  - destruct (resolve_regions lookup app_id rs) as [q' r'] eqn:E'. injection H as <- ->.
    destruct (IH q' eq_refl) as (pre & region & post & -> & -> & Ht).
    exists (r :: pre), region, post. split; [reflexivity|]. split; [reflexivity|exact Ht].
  - injection H as <- ->. exists [], r, rs. split; [reflexivity|]. split; [reflexivity|exact E].
Qed.

Lemma try_region_return (region : pystr) (resp : lookup_response) (app : jobj) :
  try_region region resp = IterReturn app ->
  exists app0, lookup_hit resp app0 /\ app = obj_set app0 (py "detected_region") (JStr region).
Proof.
  intros H. destruct (lookup_hit_or_miss resp) as [[a Ha]|Hm].
  - rewrite (try_region_hit _ _ _ Ha) in H. injection H as <-. exists a. split; [exact Ha|reflexivity].
  - exfalso. exact (try_region_miss region resp Hm app H).
Qed.

(** X3: a record returned by [get_app_info_with_region] is the first
    element of [results] in the reply for the last region queried, one of
    the first six regions, with only its "detected_region" key set to that
    region; that region always has a name in [REGION_NAMES], so the
    upper-case fallback is never used for it. *)
Theorem get_app_info_region_tag (lookup : pystr -> pystr -> lookup_response)
    (app_id : pystr) (qs : list (pystr * pystr)) (app : jobj) :
  get_app_info_with_region lookup app_id = (qs, Some app) ->
  exists pre region post app0 name,
    firstn 6 REGIONS = pre ++ region :: post /\
    qs = map (pair app_id) (pre ++ [region]) /\
    lookup_hit (lookup app_id region) app0 /\
    obj_get app (py "detected_region") = Some (JStr region) /\
    (forall k, k <> py "detected_region" -> obj_get app k = obj_get app0 k) /\
    (forall py_upper, region_name_of py_upper region = name).
Proof.
  intros H. apply resolve_regions_some in H as (pre & region & post & Hs & Hq & Ht).
  apply try_region_return in Ht as (app0 & Hhit & ->).
  assert (Hin : In region (firstn 6 REGIONS))
    by (rewrite Hs; apply in_or_app; right; left; reflexivity).
  assert (Hname : exists name, forall py_upper, region_name_of py_upper region = name).
  { exists (default [] (assoc_get REGION_NAMES region)). intros py_upper.
    vm_compute in Hin.
    repeat (destruct Hin as [<-|Hin]; [reflexivity|]). destruct Hin. }
  destruct Hname as [name Hname].
  exists pre, region, post, app0, name.
  split; [exact Hs|]. split; [exact Hq|]. split; [exact Hhit|].
  split; [apply obj_get_set_eq|]. split; [|exact Hname].
  intros k Hk. now apply obj_get_set_ne.
Qed.

Lemma get_app_info_region_tag_witness :
  exists pre region post app0 name,
    firstn 6 REGIONS = pre ++ region :: post /\
    [(py "414478124", py "cn"); (py "414478124", py "us")]
      = map (pair (py "414478124")) (pre ++ [region]) /\
    lookup_hit (sample_lookup (py "414478124") region) app0 /\
    obj_get [(py "version", JStr (py "8.0")); (py "detected_region", JStr (py "us"))]
      (py "detected_region") = Some (JStr region) /\
    (forall k, k <> py "detected_region" ->
       obj_get [(py "version", JStr (py "8.0")); (py "detected_region", JStr (py "us"))] k
       = obj_get app0 k) /\
    (forall py_upper, region_name_of py_upper region = name).
Proof.
  apply get_app_info_region_tag. vm_compute. reflexivity.
Defined.

(** X4: [send_notification] sends at most one request, and it reports
    success only when it sent exactly one. *)
Theorem send_notification_request_count (py_lower : pystr -> pystr)
    (post : request -> post_response) (e : env) (title content url icon : pystr) :
  let r := send_notification py_lower post e title content url icon in
  (length (snd r) <= 1)%nat /\ (fst r = true -> length (snd r) = 1%nat).
Proof.
  unfold send_notification. simpl.
  destruct (str_eqb (get_push_method py_lower e) (py "bark")).
  - destruct (truthy (get_bark_key e)); simpl; [|split; [lia|discriminate]].
    split; reflexivity.
  - destruct (str_eqb (get_push_method py_lower e) (py "telegram")); [|split; [simpl; lia|discriminate]].
    unfold get_telegram_config.
    destruct (truthy (default [] (TELEGRAM_BOT_TOKEN e))),
      (truthy (default [] (TELEGRAM_CHAT_ID e))); simpl; try (split; [lia|discriminate]).
    split; reflexivity.
Qed.

Lemma send_notification_request_count_witness :
  length (snd (send_notification ascii_lower post_ok env_bark (py "t") (py "c") [] [])) = 1%nat.
Proof.
  apply (proj2 (send_notification_request_count ascii_lower post_ok env_bark
                  (py "t") (py "c") [] [])).
  vm_compute. reflexivity.
Defined.

(** X5: with the Bark backend and a key, dispatch sends one form POST to
    [BARK_API/key] carrying the title and body; the "url" and "icon" fields
    are present exactly when the link and icon are non-empty; success is
    exactly a 200 status code. *)
Theorem send_notification_bark_request (py_lower : pystr -> pystr)
    (post : request -> post_response) (e : env) (title content url icon : pystr) :
  get_push_method py_lower e = py "bark" -> get_bark_key e <> [] ->
  exists data,
    send_notification py_lower post e title content url icon
    = (match post (PostForm (BARK_API ++ py "/" ++ get_bark_key e) data) with
       | PostRaised => false
       | PostReply status _ => (status =? 200)%Z
       end, [PostForm (BARK_API ++ py "/" ++ get_bark_key e) data]) /\
    assoc_get data (py "title") = Some title /\
    assoc_get data (py "body") = Some content /\
    assoc_get data (py "url") = (if truthy url then Some url else None) /\
    assoc_get data (py "icon") = (if truthy icon then Some icon else None).
Proof.
  intros Hm Hk. unfold send_notification. rewrite Hm.
  unfold str_eqb at 1. rewrite bool_decide_true by reflexivity.
  rewrite (truthy_nonempty _ Hk). simpl.
  eexists. split; [reflexivity|].
  destruct (truthy url), (truthy icon); vm_compute; repeat split; reflexivity.
Qed.

Lemma send_notification_bark_request_witness :
  exists data,
    send_notification ascii_lower post_ok env_bark (py "t") (py "c") app_link []
    = (match post_ok (PostForm (BARK_API ++ py "/" ++ get_bark_key env_bark) data) with
       | PostRaised => false
       | PostReply status _ => (status =? 200)%Z
       end, [PostForm (BARK_API ++ py "/" ++ get_bark_key env_bark) data]) /\
    assoc_get data (py "title") = Some (py "t") /\
    assoc_get data (py "body") = Some (py "c") /\
    assoc_get data (py "url") = (if truthy app_link then Some app_link else None) /\
    assoc_get data (py "icon") = (if truthy [] then Some [] else None).
Proof.
  apply send_notification_bark_request; [reflexivity|discriminate].
Defined.

Lemma obj_get_map_to_list (f : cache_entry -> json) (l : list (pystr * cache_entry)) (k : pystr) :
  obj_get (map (fun kv => (kv.1, f kv.2)) l) k = f <$> (list_to_map l : gmap pystr cache_entry) !! k.
Proof.
  induction l as [|[k' e] l IH]; simpl.
  - rewrite lookup_empty. reflexivity.
  - unfold str_eqb. destruct (decide (k = k')) as [<-|Hne].
    + rewrite bool_decide_true by reflexivity. rewrite lookup_insert_eq. reflexivity.
    + rewrite bool_decide_false by exact Hne. rewrite lookup_insert_ne by congruence. exact IH.
Qed.

Lemma forallb_firstn {A} (p : A -> bool) (n : nat) (l : list A) :
  forallb p l = true -> forallb p (firstn n l) = true.
Proof.
  revert n. induction l as [|a l IH]; intros n H; destruct n; simpl; try reflexivity.
  simpl in H. apply andb_prop in H as [Ha Hl]. rewrite Ha. simpl. now apply IH.
Qed.

(** X6: loading the file that [save_version_cache] wrote gives back a
    dict with one entry per cached id, each the dump of that id's entry, so
    [len(cache)] and the version read by [check_updates] are those of the
    saved cache. *)
Theorem save_then_load_version_cache (st : cache_store) (cache : gmap pystr cache_entry) :
  exists d,
    load_version_cache (save_version_cache true st cache) = LoadedDict d /\
    length d = size cache /\
    (forall app_id, obj_get d app_id = entry_json <$> cache !! app_id) /\
    (forall app_id, cached_version_json d app_id = Some (JStr (old_version_of cache app_id))).
Proof.
  set (d := map (fun kv => (kv.1, entry_json kv.2)) (map_to_list cache)).
  assert (Hget : forall app_id, obj_get d app_id = entry_json <$> cache !! app_id).
  { intros app_id. unfold d. rewrite obj_get_map_to_list, list_to_map_to_list. reflexivity. }
  exists d. split; [|split; [|split]].
  - unfold save_version_cache, cache_json. simpl. fold d.
    rewrite forallb_firstn; [reflexivity|].
    apply forallb_forall. intros [k v] Hin. unfold d in Hin.
    apply in_map_iff in Hin as [[k' e] [Heq _]]. injection Heq as _ <-. reflexivity.
  - unfold d. rewrite length_map. apply length_map_to_list.
  - exact Hget.
  - intros app_id. unfold cached_version_json, old_version_of. rewrite Hget.
    destruct (cache !! app_id) as [ent|]; [|reflexivity]. simpl.
    destruct ent as [[v|] [a|] [r|] [i|] [u|]]; vm_compute; reflexivity.
Qed.

Section PassInvariants.

Variable py_upper : pystr -> pystr.
Variable fromisoformat : pystr -> option datetime.
Variable now_iso : pystr.
Variable resolve : pystr -> option app_info.

Abbreviation check_one := (check_one py_upper fromisoformat now_iso resolve).
Abbreviation run_pass := (run_pass py_upper fromisoformat now_iso resolve).

(** A step leaves the cache as it is, or writes the entry of the fresh
    record under the id it checks. *)
Lemma check_one_cache_cases (b : bool) (st : run_state) (a : pystr) :
  rs_cache (check_one b st a) = rs_cache st \/
  exists info, resolve a = Some info /\
    rs_cache (check_one b st a) = <[a := entry_for now_iso info]> (rs_cache st).
Proof.
  destruct (resolve a) as [info|] eqn:Hr.
  - destruct (check_one_resolved py_upper fromisoformat now_iso resolve b st a info Hr)
      as [_ Hc].
    rewrite Hc. destruct (code_classification b (rs_cache st) a info);
      [right; exists info; split; reflexivity|left; reflexivity|right; exists info; split; reflexivity].
  - left. rewrite (check_one_unresolved py_upper fromisoformat now_iso resolve b st a Hr).
    reflexivity.
Qed.

Lemma fold_cache_entries (b : bool) (ids : list pystr) (st : run_state) (k : pystr) :
  let c' := rs_cache (fold_left (check_one b) ids st) in
  ((~ In k ids \/ resolve k = None) -> c' !! k = rs_cache st !! k) /\
  (forall info, resolve k = Some info ->
     c' !! k = rs_cache st !! k \/ c' !! k = Some (entry_for now_iso info)).
Proof.
  revert st. induction ids as [|a ids IH]; intros st; simpl; [split; [auto|auto]|].
  destruct (IH (check_one b st a)) as [IH1 IH2].
  destruct (check_one_cache_cases b st a) as [Hc|(info_a & Ha & Hc)].
  - rewrite Hc in IH1, IH2. split.
    + intros Hk. apply IH1. destruct Hk as [Hk|Hk]; [left; tauto|right; exact Hk].
    + exact IH2.
  - rewrite Hc in IH1, IH2. split.
    + intros Hk. rewrite IH1.
      * apply lookup_insert_ne. intros <-. destruct Hk as [Hk|Hk]; [tauto|congruence].
      * destruct Hk as [Hk|Hk]; [left; tauto|right; exact Hk].
    + intros info Hi. destruct (IH2 info Hi) as [H|H]; [|right; exact H].
      destruct (decide (a = k)) as [<-|Hne].
      * right. rewrite H, lookup_insert_eq. congruence.
      * left. rewrite H. apply lookup_insert_ne. exact Hne.
Qed.

Lemma fold_first_run_written (ids : list pystr) (st : run_state) (k : pystr) (info : app_info) :
  In k ids -> resolve k = Some info ->
  rs_cache (fold_left (check_one true) ids st) !! k = Some (entry_for now_iso info).
Proof.
  revert st. induction ids as [|a ids IH]; intros st Hin Hr; [destruct Hin|]. simpl.
  destruct Hin as [->|Hin]; [|now apply IH].
  destruct (check_one_resolved py_upper fromisoformat now_iso resolve true st k info Hr)
    as [_ Hc].
  simpl in Hc.
  destruct (proj2 (fold_cache_entries true ids (check_one true st k) k) info Hr) as [H|H];
    [|exact H].
  rewrite H, Hc. apply lookup_insert_eq.
Qed.

Definition resolvedb (k : pystr) : bool :=
  match resolve k with Some _ => true | None => false end.

Lemma fold_first_run_apps (ids : list pystr) (st : run_state) :
  map ad_id (rs_all_current_apps (fold_left (check_one true) ids st))
  = map ad_id (rs_all_current_apps st) ++ List.filter resolvedb ids /\
  rs_updated_apps (fold_left (check_one true) ids st) = rs_updated_apps st.
Proof.
  revert st. induction ids as [|a ids IH]; intros st; simpl.
  - rewrite app_nil_r. split; reflexivity.
  - destruct (IH (check_one true st a)) as [H1 H2]. rewrite H1, H2.
    unfold check_one, resolvedb. destruct (resolve a); simpl.
    + rewrite map_app, <- app_assoc. split; reflexivity.
    + split; reflexivity.
Qed.

(** The cached version of every id checked so far that resolves is its
    fresh version. *)
Definition version_good (c : gmap pystr cache_entry) (processed : list pystr) : Prop :=
  forall k info, In k processed -> resolve k = Some info ->
    old_version_of c k = default (py "0.0") (ai_version info).

Lemma check_one_good (b : bool) (st : run_state) (a : pystr) (processed : list pystr) :
  version_good (rs_cache st) processed ->
  version_good (rs_cache (check_one b st a)) (a :: processed).
Proof.
  intros H k info Hk Hr.
  destruct (decide (k = a)) as [->|Hne].
  - destruct (check_one_resolved py_upper fromisoformat now_iso resolve b st a info Hr)
      as [_ Hc].
    rewrite Hc. unfold code_classification.
    destruct b; [unfold old_version_of; rewrite lookup_insert_eq; reflexivity|].
    destruct (str_eqb (old_version_of (rs_cache st) a) (default (py "0.0") (ai_version info)))
      eqn:E.
    + unfold str_eqb in E. apply bool_decide_eq_true in E. exact E.
    + unfold old_version_of. rewrite lookup_insert_eq. reflexivity.
  - destruct Hk as [Hk|Hk]; [congruence|].
    destruct (check_one_cache_cases b st a) as [Hc|(info_a & Ha & Hc)]; rewrite Hc.
    + exact (H k info Hk Hr).
    + unfold old_version_of. rewrite lookup_insert_ne by congruence. exact (H k info Hk Hr).
Qed.

Lemma fold_good (b : bool) (ids : list pystr) (st : run_state) (processed : list pystr) :
  version_good (rs_cache st) processed ->
  version_good (rs_cache (fold_left (check_one b) ids st)) (rev ids ++ processed).
Proof.
  revert st processed. induction ids as [|a ids IH]; intros st processed H; simpl; [exact H|].
  rewrite <- app_assoc. simpl. apply IH. now apply check_one_good.
Qed.



Lemma fold_log_prefix (b : bool) (ids : list pystr) (st : run_state) :
  exists l, rs_log (fold_left (check_one b) ids st) = rs_log st ++ l.
Proof.
  revert st. induction ids as [|a ids IH]; intros st; simpl; [exists []; symmetry; apply app_nil_r|].
  destruct (IH (check_one b st a)) as [l Hl]. rewrite Hl.
  destruct (resolve a) as [info|] eqn:Hr.
  - destruct (check_one_resolved py_upper fromisoformat now_iso resolve b st a info Hr)
      as [Hlog _].
    rewrite Hlog, <- app_assoc. eexists. reflexivity.
  - rewrite (check_one_unresolved py_upper fromisoformat now_iso resolve b st a Hr). simpl.
    rewrite <- app_assoc. eexists. reflexivity.
Qed.

Lemma fold_change_free (b : bool) (ids : list pystr) (st : run_state) :
  existsb is_change (rs_log (fold_left (check_one b) ids st)) = false ->
  rs_cache (fold_left (check_one b) ids st) = rs_cache st.
Proof.
  revert st. induction ids as [|a ids IH]; intros st H; simpl in *; [reflexivity|].
  rewrite (IH _ H).
  destruct (fold_log_prefix b ids (check_one b st a)) as [l Hl].
  rewrite Hl, existsb_app in H. apply orb_false_iff in H as [H _].
  destruct (resolve a) as [info|] eqn:Hr.
  - destruct (check_one_resolved py_upper fromisoformat now_iso resolve b st a info Hr)
      as [Hlog Hc].
    rewrite Hlog, existsb_app in H. simpl in H. rewrite Hc.
    destruct (code_classification b (rs_cache st) a info); simpl in H;
      [rewrite orb_true_r in H; discriminate|reflexivity|rewrite orb_true_r in H; discriminate].
  - rewrite (check_one_unresolved py_upper fromisoformat now_iso resolve b st a Hr).
    reflexivity.
Qed.

Lemma fold_no_change (b : bool) (ids : list pystr) (st : run_state) :
  (forall k info, In k ids -> resolve k = Some info ->
     b = false /\ old_version_of (rs_cache st) k = default (py "0.0") (ai_version info)) ->
  existsb is_change (rs_log (fold_left (check_one b) ids st)) = existsb is_change (rs_log st).
Proof.
  revert st. induction ids as [|a ids IH]; intros st H; simpl; [reflexivity|].
  destruct (resolve a) as [info|] eqn:Hr.
  - destruct (H a info (or_introl eq_refl) Hr) as [-> Hv].
    destruct (check_one_resolved py_upper fromisoformat now_iso resolve false st a info Hr)
      as [Hlog Hc].
    unfold code_classification in Hlog, Hc. unfold str_eqb in Hlog, Hc.
    rewrite bool_decide_true in Hlog, Hc by exact Hv.
    rewrite IH.
    + rewrite Hlog, existsb_app. simpl. rewrite orb_false_r. reflexivity.
    + intros k i Hk Hi. rewrite Hc. apply H; [now right|exact Hi].
  - rewrite (check_one_unresolved py_upper fromisoformat now_iso resolve b st a Hr).
    rewrite IH.
    + simpl. rewrite existsb_app. simpl. rewrite orb_false_r. reflexivity.
    + intros k i Hk Hi. simpl. apply H; [now right|exact Hi].
Qed.

End PassInvariants.

(** The cache a run leaves on disk: the one of its last save, or the
    loaded one when it does not save. *)
Definition saved_cache (evs : list event) (cache : gmap pystr cache_entry)
    : gmap pystr cache_entry :=
  fold_left (fun acc ev => match ev with EvSave c => c | _ => acc end) evs cache.

Lemma saved_cache_notify (py_lower : pystr -> pystr) (post : request -> post_response)
    (e : env) (t c u i : pystr) (c0 x : gmap pystr cache_entry) :
  saved_cache (notify_and_save py_lower post e t c u i c0) x = c0.
Proof.
  unfold notify_and_save. destruct (send_notification py_lower post e t c u i) as [ok reqs].
  unfold saved_cache. simpl. rewrite fold_left_app. reflexivity.
Qed.

(** X7: the pass never removes a cache entry: an id that is not in the
    list or does not resolve keeps its entry as it was, and a resolved id
    keeps its entry or gets the entry of its fresh record. *)
Theorem run_pass_keeps_entries (py_upper : pystr -> pystr)
    (fromisoformat : pystr -> option datetime) (now_iso : pystr)
    (resolve : pystr -> option app_info) (b : bool) (ids : list pystr)
    (cache : gmap pystr cache_entry) (k : pystr) :
  let c' := rs_cache (run_pass py_upper fromisoformat now_iso resolve b ids cache) in
  ((~ In k ids \/ resolve k = None) -> c' !! k = cache !! k) /\
  (forall info, resolve k = Some info ->
     c' !! k = cache !! k \/ c' !! k = Some (entry_for now_iso info)) /\
  (cache !! k <> None -> c' !! k <> None).
Proof.
  destruct (fold_cache_entries py_upper fromisoformat now_iso resolve b ids (start_state cache) k)
    as [H1 H2].
  unfold run_pass. cbv zeta. simpl in H1, H2. split; [exact H1|]. split; [exact H2|].
  intros Hk. destruct (resolve k) as [info|] eqn:Hr.
  - destruct (H2 info eq_refl) as [H|H]; rewrite H; [exact Hk|discriminate].
  - rewrite H1 by (right; reflexivity). exact Hk.
Qed.

Lemma run_pass_keeps_entries_witness :
  rs_cache (run_pass ascii_upper iso_basic now_sample resolve_A false [py "A"; py "Z"] cache_X)
    !! py "X" = cache_X !! py "X".
Proof.
  apply (proj1 (run_pass_keeps_entries ascii_upper iso_basic now_sample resolve_A false
                  [py "A"; py "Z"] cache_X (py "X"))).
  right. reflexivity.
Defined.

(** X8: on a first run the initialization list has one entry per resolved
    element of the id list, in order and duplicates included, the update
    list stays empty, and every resolved id gets the entry of its fresh
    record. *)
Theorem run_pass_first_run_apps (py_upper : pystr -> pystr)
    (fromisoformat : pystr -> option datetime) (now_iso : pystr)
    (resolve : pystr -> option app_info) (ids : list pystr) (cache : gmap pystr cache_entry) :
  let st := run_pass py_upper fromisoformat now_iso resolve true ids cache in
  map ad_id (rs_all_current_apps st) = List.filter (resolvedb resolve) ids /\
  rs_updated_apps st = [] /\
  (forall k info, In k ids -> resolve k = Some info ->
     rs_cache st !! k = Some (entry_for now_iso info)).
Proof.
  destruct (fold_first_run_apps py_upper fromisoformat now_iso resolve ids (start_state cache))
    as [H1 H2].
  split; [exact H1|]. split; [exact H2|].
  intros k info Hk Hr. exact (fold_first_run_written py_upper fromisoformat now_iso resolve
                                ids (start_state cache) k info Hk Hr).
Qed.

Lemma run_pass_first_run_apps_witness :
  rs_cache (run_pass ascii_upper iso_basic now_sample resolve_A true [py "A"; py "A"] ∅)
    !! py "A" = Some (entry_for now_sample (sample_info (py "2.0") (py "Bug fixes."))).
Proof.
  apply (proj2 (proj2 (run_pass_first_run_apps ascii_upper iso_basic now_sample resolve_A
                         [py "A"; py "A"] ∅))).
  - left. reflexivity.
  - reflexivity.
Defined.


(** X10: running again against the cache the first run left behind, with
    the same storefront answers, sends no notification and saves nothing,
    whatever the backend configuration. *)
Theorem check_updates_rerun_quiet (py_lower py_upper : pystr -> pystr)
    (fromisoformat : pystr -> option datetime) (now_iso now_iso' : pystr)
    (post post' : request -> post_response) (resolve : pystr -> option app_info)
    (e e' : env) (ids : list pystr) (cache : gmap pystr cache_entry) :
  check_updates py_lower py_upper fromisoformat now_iso' post' resolve e' ids
    (saved_cache (check_updates py_lower py_upper fromisoformat now_iso post resolve e ids cache)
       cache) = [].
Proof.
  assert (Hsaved :
    saved_cache (check_updates py_lower py_upper fromisoformat now_iso post resolve e ids cache) cache
    = rs_cache (run_pass py_upper fromisoformat now_iso resolve
                  (bool_decide (size cache = 0%nat)) ids cache)).
  { destruct (check_updates_shape py_lower py_upper fromisoformat now_iso post resolve e ids cache)
      as [[Hno ->]|[_ (t & c & u & i & ->)]].
    - symmetry. exact (fold_change_free py_upper fromisoformat now_iso resolve _ ids
                         (start_state cache) Hno).
    - apply saved_cache_notify. }
  rewrite Hsaved.
  set (c' := rs_cache (run_pass py_upper fromisoformat now_iso resolve
                         (bool_decide (size cache = 0%nat)) ids cache)).
  assert (Hgood : version_good resolve c' (rev ids ++ [])).
  { apply fold_good. intros k info []. }
  assert (Hne : forall k info, In k ids -> resolve k = Some info -> size c' <> 0%nat).
  { intros k info Hk Hr Hsz. apply map_size_empty_inv in Hsz.
    destruct (decide (size cache = 0%nat)) as [H0|H0].
    - assert (Hw := fold_first_run_written py_upper fromisoformat now_iso resolve ids
                      (start_state cache) k info Hk Hr).
      unfold c' in Hsz. rewrite bool_decide_true in Hsz by exact H0.
      unfold run_pass in Hsz. rewrite Hsz, lookup_empty in Hw. discriminate.
    - apply map_size_non_empty_iff, map_choose in H0 as (k0 & x & Hx).
      destruct (run_pass_keeps_entries py_upper fromisoformat now_iso resolve
                  (bool_decide (size cache = 0%nat)) ids cache k0) as (_ & _ & H3).
      apply H3; [rewrite Hx; discriminate|]. fold c'. rewrite Hsz. apply lookup_empty. }
  destruct (check_updates_shape py_lower py_upper fromisoformat now_iso' post' resolve e' ids c')
    as [[_ H]|[Hch _]]; [exact H|exfalso].
  simpl in Hch. unfold run_pass in Hch.
  rewrite (fold_no_change py_upper fromisoformat now_iso' resolve _ ids (start_state c')) in Hch;
    [discriminate|].
  intros k info Hk Hr. split.
  - apply bool_decide_false. exact (Hne k info Hk Hr).
  - apply (Hgood k info); [rewrite app_nil_r; apply in_rev; rewrite rev_involutive; exact Hk|exact Hr].
Qed.

Lemma digits_rev_length (fuel n k : nat) :
  (n < 10 ^ k)%nat -> (1 <= k)%nat -> (length (digits_rev fuel n) <= k)%nat.
Proof.
  revert n k. induction fuel as [|f IH]; intros n k Hn Hk; cbn [digits_rev length]; [lia|].
  destruct (Nat.ltb_spec n 10) as [H|H]; cbn [length]; [lia|].
  destruct k as [|[|k]]; [lia| simpl in Hn; lia|].
  assert (Hd : (n / 10 < 10 ^ S k)%nat).
  { apply Nat.Div0.div_lt_upper_bound. rewrite <- Nat.pow_succ_r'. exact Hn. }
  specialize (IH (n / 10) (S k) Hd ltac:(lia)). lia.
Qed.

Lemma zero_pad_length (w k : nat) (n : Z) :
  (Z.to_nat n < 10 ^ k)%nat -> (1 <= k <= w)%nat -> length (zero_pad w n) = w.
Proof.
  intros Hn Hk. unfold zero_pad, py_str_nat. rewrite length_app, repeat_length, length_rev.
  pose proof (digits_rev_length (S (Z.to_nat n)) (Z.to_nat n) k Hn ltac:(lia)). lia.
Qed.

Lemma strftime_ymdhm_length (dt : datetime) :
  (dt_year dt <= 9999)%Z -> (dt_month dt < 100)%Z -> (dt_day dt < 100)%Z ->
  (dt_hour dt < 100)%Z -> (dt_minute dt < 100)%Z ->
  length (strftime_ymdhm dt) = 16%nat.
Proof.
  intros Hy Hm Hd Hh Hi. unfold strftime_ymdhm. rewrite !length_app.
  rewrite (zero_pad_length 4 4 (dt_year dt)) by (simpl; lia).
  rewrite (zero_pad_length 2 2 (dt_month dt)) by (simpl; lia).
  rewrite (zero_pad_length 2 2 (dt_day dt)) by (simpl; lia).
  rewrite (zero_pad_length 2 2 (dt_hour dt)) by (simpl; lia).
  rewrite (zero_pad_length 2 2 (dt_minute dt)) by (simpl; lia).
  reflexivity.
Qed.

Lemma days_in_month_le (y m : Z) : (days_in_month y m <= 31)%Z.
Proof.
  unfold days_in_month.
  destruct (m =? 2)%Z; [destruct (is_leap y); lia|].
  destruct ((m =? 4) || (m =? 6) || (m =? 9) || (m =? 11))%Z; lia.
Qed.

Lemma shift_8_hours_ranges (dt : datetime) :
  (dt_month dt <= 12 /\ dt_day dt <= 31 /\ dt_hour dt <= 23 /\ dt_minute dt <= 59)%Z ->
  let r := shift_8_hours dt in
  (dt_month r <= 12 /\ dt_day r <= 31 /\ dt_hour r <= 23 /\ dt_minute r <= 59)%Z.
Proof.
  intros (Hm & Hd & Hh & Hi). unfold shift_8_hours.
  destruct (Z.ltb_spec (dt_hour dt + 8) 24); [simpl; lia|].
  pose proof (days_in_month_le (dt_year dt) (dt_month dt)).
  destruct (Z.ltb_spec (dt_day dt) (days_in_month (dt_year dt) (dt_month dt)));
    [simpl; lia|].
  destruct (Z.ltb_spec (dt_month dt) 12); simpl; lia.
Qed.

(** X11: when [fromisoformat] yields field values in their calendar
    ranges, [format_datetime] returns at most 16 code points. *)
Theorem format_datetime_length (fromisoformat : pystr -> option datetime) (s : pystr) :
  (forall dt, fromisoformat (str_replace_char 90%Z (py "+00:00") s) = Some dt ->
     (dt_month dt <= 12 /\ dt_day dt <= 31 /\ dt_hour dt <= 23 /\ dt_minute dt <= 59)%Z) ->
  (length (format_datetime fromisoformat s) <= 16)%nat.
Proof.
  intros Hr. unfold format_datetime.
  destruct (truthy s); simpl; [|unfold UNKNOWN_TIME; simpl; lia].
  destruct (fromisoformat (str_replace_char 90 (py "+00:00") s)) as [dt|] eqn:Hp;
    [|rewrite length_firstn; lia].
  pose proof (shift_8_hours_ranges dt (Hr dt eq_refl)) as (Hm & Hd & Hh & Hi).
  unfold add_8_hours. destruct (Z.leb_spec (dt_year (shift_8_hours dt)) MAXYEAR) as [Hy|Hy];
    [|rewrite length_firstn; lia].
  rewrite strftime_ymdhm_length; [lia|exact Hy|lia|lia|lia|lia].
Qed.

Lemma format_datetime_length_witness :
  (length (format_datetime iso_basic iso_sample) <= 16)%nat.
Proof.
  apply format_datetime_length. intros dt H. vm_compute in H. injection H as <-.
  simpl. lia.
Defined.
